(** * ibc-go: Tendermint light-client updates, the merged client store of the
      Wasm light client, and replay of received packets.

    A shallow embedding of
    - [modules/light-clients/07-tendermint/types/update.go]
      ([CheckHeaderAndUpdateState], [checkTrustedHeader], [checkValidity],
      [UpdateState], [pruneOldestConsensusState]),
    - the merged client store of [modules/light-clients/08-wasm]
      ([MergedClientStore.Set], [Delete], [GetStore], [SplitPrefix]),
    - the packet receive transition described for the channel keeper.

    Go byte slices are lists of bytes, [uint64] fields are [N], instants and
    durations are [Z] (nanoseconds), stores are finite maps that are passed in
    and returned, and a Go [panic] is a separate outcome next to returned
    errors. *)

From Stdlib Require Import ZArith NArith List Lia.
From Stdlib Require Import Strings.String Strings.Byte.
From Stdlib Require Import DecimalString DecimalN.
From stdpp Require Import base option list gmap fin_maps sorting strings.

Open Scope Z_scope.

(** ** Byte slices *)

Abbreviation bytes := (list byte).

#[global] Instance byte_eq_decision : EqDecision byte := Byte.byte_eq_dec.

#[global] Program Instance byte_countable : Countable byte :=
  inj_countable' Byte.to_N (fun n => default Byte.x00 (Byte.of_N n)) _.
Next Obligation. intros b. simpl. by rewrite Byte.of_to_N. Qed.

(** [bytes.HasPrefix]. *)
Fixpoint HasPrefix (s prefix : bytes) {struct prefix} : bool :=
  match prefix, s with
  | [], _ => true
  | _ :: _, [] => false
  | p :: prefix', c :: s' => if decide (p = c) then HasPrefix s' prefix' else false
  end.

(** [bytes.TrimPrefix]: [s] without the leading [prefix], or [s] itself. *)
Definition TrimPrefix (s prefix : bytes) : bytes :=
  if HasPrefix s prefix then drop (length prefix) s else s.

(** [bytes.Equal] (a nil slice and an empty slice are equal). *)
Definition bytes_Equal (a b : bytes) : bool := bool_decide (a = b).

(** ** The merged client store (08-wasm) *)

Module Wasm.

(** [storetypes.KVStore], the part of the interface the merged store calls. *)
Class KVStore (S : Type) := {
  kv_Get : S -> bytes -> option bytes;
  kv_Has : S -> bytes -> bool;
  kv_Set : S -> bytes -> bytes -> S;
  kv_Delete : S -> bytes -> S
}.

Definition SubjectPrefix : bytes := list_byte_of_string "subject/".
Definition SubstitutePrefix : bytes := list_byte_of_string "substitute/".

Section MergedClientStore.
Context {S : Type} `{KVStore S}.

Record MergedClientStore := NewMergedClientStore {
  subjectStore : S;
  substituteStore : S
}.

(** [SplitPrefix]: the recognised prefix ([None] is Go's nil) and the rest
    of the key. *)
Definition SplitPrefix (key : bytes) : option bytes * bytes :=
  if HasPrefix key SubjectPrefix then
    (Some SubjectPrefix, TrimPrefix key SubjectPrefix)
  else if HasPrefix key SubstitutePrefix then
    (Some SubstitutePrefix, TrimPrefix key SubstitutePrefix)
  else (None, key).

(** [bytes.Equal(prefix, p)] for a possibly nil [prefix] and a non-empty
    [p]. *)
Definition prefix_Equal (prefix : option bytes) (p : bytes) : bool :=
  bytes_Equal (default [] prefix) p.

Definition GetStore (ws : MergedClientStore) (prefix : option bytes) : option S :=
  if prefix_Equal prefix SubjectPrefix then Some (subjectStore ws)
  else if prefix_Equal prefix SubstitutePrefix then Some (substituteStore ws)
  else None.

Definition Get (ws : MergedClientStore) (key : bytes) : option bytes :=
  let '(prefix, key) := SplitPrefix key in
  match GetStore ws prefix with
  | None => None
  | Some store => kv_Get store key
  end.

Definition Has (ws : MergedClientStore) (key : bytes) : bool :=
  let '(prefix, key) := SplitPrefix key in
  match GetStore ws prefix with
  | None => false
  | Some store => kv_Has store key
  end.

Definition Set_ (ws : MergedClientStore) (key value : bytes) : MergedClientStore :=
  let '(prefix, key) := SplitPrefix key in
  if negb (prefix_Equal prefix SubjectPrefix) then ws
  else {| subjectStore := kv_Set (subjectStore ws) key value;
          substituteStore := substituteStore ws |}.

Definition Delete (ws : MergedClientStore) (key : bytes) : MergedClientStore :=
  let '(prefix, key) := SplitPrefix key in
  if negb (prefix_Equal prefix SubjectPrefix) then ws
  else {| subjectStore := kv_Delete (subjectStore ws) key;
          substituteStore := substituteStore ws |}.
End MergedClientStore.

Arguments MergedClientStore S : clear implicits.

(** A store that is a finite map. *)
#[global] Instance gmap_KVStore : KVStore (gmap bytes bytes) := {
  kv_Get m k := m !! k;
  kv_Has m k := bool_decide (is_Some (m !! k));
  kv_Set m k v := <[k := v]> m;
  kv_Delete m k := delete k m
}.

(** A store that only records the calls it receives, oldest first. *)
Inductive StoreCall :=
| CallSet (key value : bytes)
| CallDelete (key : bytes).

#[global] Instance log_KVStore : KVStore (list StoreCall) := {
  kv_Get _ _ := None;
  kv_Has _ _ := false;
  kv_Set log k v := log ++ [CallSet k v];
  kv_Delete log k := log ++ [CallDelete k]
}.

(** *** Iterators, the adapter for the Wasm VM, and sequences of calls *)

(** The iterators of [storetypes.KVStore]: [It] is the store's iterator type,
    [it_Close] its [Close] method. *)
Class KVIterate (S It : Type) := {
  kv_Iterator : S -> bytes -> bytes -> It;
  kv_ReverseIterator : S -> bytes -> bytes -> It;
  it_Close : It -> It
}.

Section MergedIterators.
Context {S It : Type} `{KVStore S} `{KVIterate S It}.

(** [closedIterator]: a dummy iterator of the subject store, closed right
    away. *)
Definition closedIterator (ws : MergedClientStore S) : It :=
  let it := kv_Iterator (subjectStore ws) [x00] [x01] in
  it_Close it.

Definition Iterator (ws : MergedClientStore S) (start end_ : bytes) : It :=
  let '(prefixStart, start) := SplitPrefix start in
  let '(prefixEnd, end_) := SplitPrefix end_ in
  if negb (bytes_Equal (default [] prefixStart) (default [] prefixEnd)) then
    closedIterator ws
  else
    match GetStore ws prefixStart with
    | None => closedIterator ws
    | Some store => kv_Iterator store start end_
    end.

Definition ReverseIterator (ws : MergedClientStore S) (start end_ : bytes) : It :=
  let '(prefixStart, start) := SplitPrefix start in
  let '(prefixEnd, end_) := SplitPrefix end_ in
  if negb (bytes_Equal (default [] prefixStart) (default [] prefixEnd)) then
    closedIterator ws
  else
    match GetStore ws prefixStart with
    | None => closedIterator ws
    | Some store => kv_ReverseIterator store start end_
    end.
End MergedIterators.

(** The merged store is itself a [storetypes.KVStore]
    ([_ storetypes.KVStore = &MergedClientStore{}]). *)
#[global] Instance MergedClientStore_KVStore {S : Type} `{KVStore S}
  : KVStore (MergedClientStore S) := {
  kv_Get := Get;
  kv_Has := Has;
  kv_Set := Set_;
  kv_Delete := Delete
}.

(** [StoreAdapter]: the store handed to the Wasm VM, which forwards every call
    to its parent. *)
Record StoreAdapter (S : Type) := NewStoreAdapter { parent : S }.
Arguments NewStoreAdapter {S} parent.
Arguments parent {S} s.

Section StoreAdapter.
Context {S : Type} `{KVStore S}.

Definition Adapter_Get (s : StoreAdapter S) (key : bytes) : option bytes :=
  kv_Get (parent s) key.

Definition Adapter_Set (s : StoreAdapter S) (key value : bytes) : StoreAdapter S :=
  NewStoreAdapter (kv_Set (parent s) key value).

Definition Adapter_Delete (s : StoreAdapter S) (key : bytes) : StoreAdapter S :=
  NewStoreAdapter (kv_Delete (parent s) key).

(** One write of a contract, made through the adapter. *)
Definition adapterCall (s : StoreAdapter S) (call : StoreCall) : StoreAdapter S :=
  match call with
  | CallSet key value => Adapter_Set s key value
  | CallDelete key => Adapter_Delete s key
  end.

(** The same write made on a store directly. *)
Definition storeCall (s : S) (call : StoreCall) : S :=
  match call with
  | CallSet key value => kv_Set s key value
  | CallDelete key => kv_Delete s key
  end.
End StoreAdapter.

(** What a write means for the subject store: the write with "subject/"
    stripped from its key, or nothing for any other key. *)
Definition subjectCall (call : StoreCall) : option StoreCall :=
  match call with
  | CallSet key value =>
      if HasPrefix key SubjectPrefix
      then Some (CallSet (TrimPrefix key SubjectPrefix) value) else None
  | CallDelete key =>
      if HasPrefix key SubjectPrefix
      then Some (CallDelete (TrimPrefix key SubjectPrefix)) else None
  end.

(** Iterators that only record how they were obtained. *)
Inductive LoggedIterator :=
| IteratorOf (reverse : bool) (start end_ : bytes)
| Closed (it : LoggedIterator).

#[global] Instance log_KVIterate : KVIterate (list StoreCall) LoggedIterator := {
  kv_Iterator _ start end_ := IteratorOf false start end_;
  kv_ReverseIterator _ start end_ := IteratorOf true start end_;
  it_Close it := Closed it
}.

End Wasm.

(** ** Heights, errors and outcomes (02-client) *)

Module clienttypes.

(** Modelled from the spec: the [Height] type of 02-client, a pair
    (revisionNumber, revisionHeight) ordered by revision number first and
    revision height second. *)
Record Height := NewHeight { RevisionNumber : N; RevisionHeight : N }.

#[global] Instance Height_eq_decision : EqDecision Height.
Proof. solve_decision. Defined.

#[global] Program Instance Height_countable : Countable Height :=
  inj_countable' (fun h => (RevisionNumber h, RevisionHeight h))
                 (fun p => NewHeight p.1 p.2) _.
Next Obligation. by intros []. Qed.

Definition Compare (h other : Height) : comparison :=
  if negb (RevisionNumber h =? RevisionNumber other)%N
  then (RevisionNumber h ?= RevisionNumber other)%N
  else (RevisionHeight h ?= RevisionHeight other)%N.

Definition LT (h other : Height) : bool :=
  match Compare h other with Lt => true | _ => false end.
Definition LTE (h other : Height) : bool :=
  match Compare h other with Gt => false | _ => true end.
Definition GT (h other : Height) : bool :=
  match Compare h other with Gt => true | _ => false end.
Definition EQ (h other : Height) : bool :=
  match Compare h other with Eq => true | _ => false end.

(** The order as a relation, for sorting the heights of a store. *)
Definition HeightLE : relation Height := fun a b => LTE a b = true.

#[global] Instance HeightLE_decision : RelDecision HeightLE.
Proof. intros a b. unfold HeightLE. apply _. Defined.

Definition ZeroHeight : Height := NewHeight 0 0.
Definition IsZero (h : Height) : bool :=
  (RevisionNumber h =? 0)%N && (RevisionHeight h =? 0)%N.

(** The registered errors that update.go returns or wraps; [ErrLibrary] stands
    for an error value produced by the Tendermint library, and [Wrapped] for
    [sdkerrors.Wrap]/[Wrapf] (the formatted arguments are left out). *)
Inductive Error :=
| ErrInvalidHeader
| ErrInvalidClientType
| ErrConsensusStateNotFound
| ErrInvalidConsensus
| ErrInvalidValidatorSet
| ErrInvalidHeaderHeight
| ErrLibrary (description : string)
| Wrapped (err : Error) (description : string).

#[global] Instance Error_eq_decision : EqDecision Error.
Proof. solve_decision. Defined.

(** What a call does: it returns values, returns an error, or panics. *)
Inductive Outcome (A : Type) :=
| Ok (a : A)
| Err (e : Error)
| Panic (e : Error).
Arguments Ok {A} a.
Arguments Err {A} e.
Arguments Panic {A} e.

End clienttypes.

(** ** Types of the Tendermint library used by the light client *)

Module tmtypes.

Record Fraction := { Numerator : N; Denominator : N }.

Record Header := {
  ChainID : string;
  Height : Z;                    (* int64 *)
  Time : Z;
  ValidatorsHash : bytes;
  NextValidatorsHash : bytes;
  AppHash : bytes
}.

Record Commit := {
  CommitHeight : Z;
  BlockHash : bytes;
  Signatures : list bytes
}.

Record SignedHeader := {
  sh_Header : Header;
  sh_Commit : option Commit      (* nil in a header built from trusted fields *)
}.

Record Validator := { PubKey : bytes; VotingPower : Z }.

Record ValidatorSet := {
  Validators : list Validator;
  Proposer : option Validator
}.

#[global] Instance Fraction_eq_decision : EqDecision Fraction.
Proof. solve_decision. Defined.
#[global] Instance Header_eq_decision : EqDecision Header.
Proof. solve_decision. Defined.
#[global] Instance Commit_eq_decision : EqDecision Commit.
Proof. solve_decision. Defined.
#[global] Instance SignedHeader_eq_decision : EqDecision SignedHeader.
Proof. solve_decision. Defined.
#[global] Instance Validator_eq_decision : EqDecision Validator.
Proof. solve_decision. Defined.
#[global] Instance ValidatorSet_eq_decision : EqDecision ValidatorSet.
Proof. solve_decision. Defined.

End tmtypes.

(** ** The Tendermint light client (07-tendermint/types) *)

Module Tendermint.
Import clienttypes.

(** [time.Time] as nanoseconds since the epoch and [time.Duration] as
    nanoseconds. *)
Abbreviation Time := Z (only parsing).
Abbreviation Duration := Z (only parsing).

Definition Before (t u : Time) : bool := t <? u.
Definition After (t u : Time) : bool := u <? t.
Definition Add (t : Time) (d : Duration) : Time := t + d.

(** Modelled from the spec: the generated [ClientState] message, with the
    fields the data model lists (chain identifier, trust threshold, trusting
    period, unbonding period, max clock drift, frozen height, latest
    height). The field [FrozenHeight] is [FrozenHeight_] here, next to the
    package variable [FrozenHeight]. *)
Record ClientState := {
  ChainId : string;
  TrustLevel : tmtypes.Fraction;
  TrustingPeriod : Duration;
  UnbondingPeriod : Duration;
  MaxClockDrift : Duration;
  FrozenHeight_ : Height;
  LatestHeight : Height
}.

Definition set_FrozenHeight (cs : ClientState) (h : Height) : ClientState :=
  {| ChainId := ChainId cs; TrustLevel := TrustLevel cs;
     TrustingPeriod := TrustingPeriod cs; UnbondingPeriod := UnbondingPeriod cs;
     MaxClockDrift := MaxClockDrift cs; FrozenHeight_ := h;
     LatestHeight := LatestHeight cs |}.

Definition set_LatestHeight (cs : ClientState) (h : Height) : ClientState :=
  {| ChainId := ChainId cs; TrustLevel := TrustLevel cs;
     TrustingPeriod := TrustingPeriod cs; UnbondingPeriod := UnbondingPeriod cs;
     MaxClockDrift := MaxClockDrift cs; FrozenHeight_ := FrozenHeight_ cs;
     LatestHeight := h |}.

(** Modelled from the spec: the generated [ConsensusState] message
    (timestamp, commitment root, next-validator-set hash). *)
Record ConsensusState := {
  Timestamp : Time;
  Root : bytes;                  (* commitmenttypes.MerkleRoot{Hash} *)
  NextValidatorsHash : bytes
}.

(** Modelled from the spec: the generated [Header] message: a signed header,
    its validator set, and the trusted height and validators it is verified
    against. *)
Record Header := {
  SignedHeader : tmtypes.SignedHeader;
  ValidatorSet : tmtypes.ValidatorSet;
  TrustedHeight : Height;
  TrustedValidators : tmtypes.ValidatorSet
}.

Record Misbehaviour := {
  Header1 : Header;
  Header2 : Header
}.

(** [exported.ClientMessage]: the two message kinds the type switch in
    update.go tells apart. *)
Inductive ClientMessage :=
| MsgHeader (h : Header)
| MsgMisbehaviour (m : Misbehaviour).

#[global] Instance ClientState_eq_decision : EqDecision ClientState.
Proof. solve_decision. Defined.
#[global] Instance ConsensusState_eq_decision : EqDecision ConsensusState.
Proof. solve_decision. Defined.

(** The frozen-height sentinel {0, 1} ("Misbehaviour sets frozen height to
    {0, 1}"). *)
Definition FrozenHeight : Height := NewHeight 0 1.

(** [sdk.Context]: the block time and the height of the executing chain. *)
Record Context := {
  BlockTime : Time;
  SelfHeight : Height
}.

(** *** The client store *)

(** What sits under a consensus-state key: bytes that decode to a consensus
    state, or bytes that do not. *)
Inductive StoreValue :=
| Stored (c : ConsensusState)
| Undecodable.

Record Metadata := {
  ProcessedTime : Time;
  ProcessedHeight : Height
}.

(** Modelled from the spec: the client store of store.go, the per-client
    history (height to consensus state) together with the metadata kept per
    height. *)
Record ClientStore := {
  consensusStates : gmap Height StoreValue;
  consensusMetadata : gmap Height Metadata
}.

(** Modelled from the spec: [GetConsensusState] of store.go, [get(height)];
    it fails when nothing is stored at the height or the stored bytes do not
    decode. *)
Definition GetConsensusState (clientStore : ClientStore) (height : Height)
  : Error + ConsensusState :=
  match consensusStates clientStore !! height with
  | None => inl (Wrapped ErrConsensusStateNotFound "consensus state does not exist for height")
  | Some Undecodable => inl (Wrapped ErrInvalidConsensus "unmarshal error")
  | Some (Stored c) => inr c
  end.

(** The stored heights in ascending order, the order of the store's
    iterator. *)
Definition ascendingHeights (clientStore : ClientStore) : list Height :=
  merge_sort HeightLE ((map_to_list (consensusStates clientStore)).*1).

(** The consensus state under an iterated key, when it can be read. *)
Definition getTmConsensusState (clientStore : ClientStore) (height : Height)
  : option ConsensusState :=
  match consensusStates clientStore !! height with
  | Some (Stored c) => Some c
  | _ => None
  end.

(** Modelled from the spec: [GetPreviousConsensusState] of store.go,
    [getPrevious(height)]: the state at the largest stored height strictly
    less than the given one. *)
Definition GetPreviousConsensusState (clientStore : ClientStore) (height : Height)
  : option ConsensusState :=
  match last (filter (fun h => LT h height = true) (ascendingHeights clientStore)) with
  | None => None
  | Some h => getTmConsensusState clientStore h
  end.

(** Modelled from the spec: [GetNextConsensusState] of store.go,
    [getNext(height)]: the state at the smallest stored height strictly
    greater than the given one. *)
Definition GetNextConsensusState (clientStore : ClientStore) (height : Height)
  : option ConsensusState :=
  match head (filter (fun h => GT h height = true) (ascendingHeights clientStore)) with
  | None => None
  | Some h => getTmConsensusState clientStore h
  end.

(** Modelled from the spec: [IterateConsensusStateAscending] of store.go,
    [iterateAscending(callback)]: the stored heights are handed to the
    callback in ascending order until it returns true, which is how
    [pruneOldestConsensusState] looks at the earliest state only. [St] is the
    state the callback's closure captures. *)
Fixpoint iterateHeights {St : Type} (hs : list Height)
    (cb : Height -> St -> bool * St) (st : St) : St :=
  match hs with
  | [] => st
  | h :: hs' =>
      let '(stop, st') := cb h st in
      if stop then st' else iterateHeights hs' cb st'
  end.

Definition IterateConsensusStateAscending {St : Type} (clientStore : ClientStore)
    (cb : Height -> St -> bool * St) (st : St) : St :=
  iterateHeights (ascendingHeights clientStore) cb st.

(** Modelled from the spec: [set(height, state)], the write with which the
    host records a consensus state returned by an update. *)
Definition SetConsensusState (clientStore : ClientStore) (height : Height)
    (c : ConsensusState) : ClientStore :=
  {| consensusStates := <[height := Stored c]> (consensusStates clientStore);
     consensusMetadata := consensusMetadata clientStore |}.

(** Modelled from the spec: [deleteConsensusState] of store.go,
    [delete(height)]. *)
Definition deleteConsensusState (clientStore : ClientStore) (height : Height)
  : ClientStore :=
  {| consensusStates := delete height (consensusStates clientStore);
     consensusMetadata := consensusMetadata clientStore |}.

(** Modelled from the spec: [deleteConsensusMetadata] and
    [setConsensusMetadata] of store.go: the metadata of a height is removed
    with its consensus state and written, from the current context, when a
    header for the height is accepted. *)
Definition deleteConsensusMetadata (clientStore : ClientStore) (height : Height)
  : ClientStore :=
  {| consensusStates := consensusStates clientStore;
     consensusMetadata := delete height (consensusMetadata clientStore) |}.

Definition setConsensusMetadata (ctx : Context) (clientStore : ClientStore)
    (height : Height) : ClientStore :=
  {| consensusStates := consensusStates clientStore;
     consensusMetadata :=
       <[height := {| ProcessedTime := BlockTime ctx;
                      ProcessedHeight := SelfHeight ctx |}]>
         (consensusMetadata clientStore) |}.

(** Modelled from the spec: [IsExpired] of client_state.go: a consensus state
    is expired when its timestamp plus the trusting period is not after the
    current time. *)
Definition IsExpired (cs : ClientState) (latestTimestamp now : Time) : bool :=
  let expirationTime := Add latestTimestamp (TrustingPeriod cs) in
  negb (After expirationTime now).

(** Modelled from the spec: [TrustLevel.ToTendermint], the same fraction as the
    library's type. *)
Definition ToTendermint (f : tmtypes.Fraction) : tmtypes.Fraction := f.

(** [int64(x)] for a [uint64] [x]. *)
Definition int64_of_uint64 (x : N) : Z :=
  let z := Z.of_N x in
  if z <? 2 ^ 63 then z else z - 2 ^ 64.

(** Code called by update.go that is not part of it: [GetHeight] of header.go,
    the revision helpers of 02-client, and the Tendermint library (decoding of
    validator sets and signed headers, the validator-set hash and
    [light.Verify]). *)
Class Collaborators := {
  GetHeight : Header -> Height;
  IsRevisionFormat : string -> bool;
  SetRevisionNumber : string -> N -> string * option Error;
  ValidatorSetFromProto : tmtypes.ValidatorSet -> Error + tmtypes.ValidatorSet;
  SignedHeaderFromProto : tmtypes.SignedHeader -> Error + tmtypes.SignedHeader;
  ValidatorSet_Hash : tmtypes.ValidatorSet -> bytes;
  light_Verify :
    tmtypes.SignedHeader -> tmtypes.ValidatorSet ->
    tmtypes.SignedHeader -> tmtypes.ValidatorSet ->
    Duration -> Time -> Duration -> tmtypes.Fraction -> option Error
}.

(** *** Store invariants *)

(** Every stored consensus state decodes. *)
Definition Readable (clientStore : ClientStore) : Prop :=
  forall h v, consensusStates clientStore !! h = Some v -> v <> Undecodable.

(** The monotonicity invariant: stored consensus states at increasing heights
    have strictly increasing timestamps. *)
Definition Monotonic (clientStore : ClientStore) : Prop :=
  forall h1 h2 c1 c2,
    consensusStates clientStore !! h1 = Some (Stored c1) ->
    consensusStates clientStore !! h2 = Some (Stored c2) ->
    LT h1 h2 = true -> Timestamp c1 < Timestamp c2.

#[global] Instance StoreValue_eq_decision : EqDecision StoreValue.
Proof. solve_decision. Defined.

(** The timestamps of two stored values are in the order of their heights. *)
Definition ordered (h1 : Height) (v1 : StoreValue) (h2 : Height) (v2 : StoreValue)
  : bool :=
  match v1, v2 with
  | Stored c1, Stored c2 => implb (LT h1 h2) (Timestamp c1 <? Timestamp c2)
  | _, _ => true
  end.

#[global] Instance Readable_decision clientStore : Decision (Readable clientStore).
Proof.
  unfold Readable.
  exact (decide (map_Forall (fun _ v => v <> Undecodable) (consensusStates clientStore))).
Defined.

#[global] Instance Monotonic_decision clientStore : Decision (Monotonic clientStore).
Proof.
  refine (cast_if (decide (map_Forall (fun h1 v1 =>
            map_Forall (fun h2 v2 => ordered h1 v1 h2 v2 = true)
              (consensusStates clientStore)) (consensusStates clientStore))));
    unfold Monotonic.
  - abstract (intros h1 h2 c1 c2 H1 H2 Hlt;
      specialize (m h1 _ H1 h2 _ H2); simpl in m; rewrite Hlt in m; simpl in m; lia).
  - abstract (intros Hm; apply n; intros h1 v1 H1 h2 v2 H2;
      destruct v1 as [c1|], v2 as [c2|]; simpl; try reflexivity;
      destruct (LT h1 h2) eqn:Hlt; simpl; [|reflexivity];
      specialize (Hm h1 h2 c1 c2 H1 H2 Hlt); lia).
Defined.

(** [h0] is the earliest stored height, the one an ascending iteration
    visits first. *)
Definition Earliest (clientStore : ClientStore) (h0 : Height) : Prop :=
  is_Some (consensusStates clientStore !! h0) /\
  forall h, is_Some (consensusStates clientStore !! h) -> LTE h0 h = true.

(** Recording [c] at [height] would break monotonicity: a state at a smaller
    height is not strictly before it, or a state at a larger height is not
    strictly after it. *)
Definition BreaksMonotonicity (clientStore : ClientStore) (height : Height)
    (c : ConsensusState) : Prop :=
  (exists h1 c1, LT h1 height = true /\
     consensusStates clientStore !! h1 = Some (Stored c1) /\
     ~ Timestamp c1 < Timestamp c) \/
  (exists h2 c2, GT h2 height = true /\
     consensusStates clientStore !! h2 = Some (Stored c2) /\
     ~ Timestamp c < Timestamp c2).

(** *** update.go *)

Section Update.
Context `{Collaborators}.

Definition GetTime (h : Header) : Time :=
  tmtypes.Time (tmtypes.sh_Header (SignedHeader h)).

(** Modelled from the spec: [Header.ConsensusState] of header.go, the
    consensus state derived from a header; the same three fields that
    [UpdateState] fills in. *)
Definition Header_ConsensusState (h : Header) : ConsensusState :=
  {| Timestamp := GetTime h;
     Root := tmtypes.AppHash (tmtypes.sh_Header (SignedHeader h));
     NextValidatorsHash :=
       tmtypes.NextValidatorsHash (tmtypes.sh_Header (SignedHeader h)) |}.

(** [checkTrustedHeader]: the trusted validators must hash to the next
    validators hash of the trusted consensus state. [None] is a nil
    error. *)
Definition checkTrustedHeader (header : Header) (consState : ConsensusState)
  : option Error :=
  match ValidatorSetFromProto (TrustedValidators header) with
  | inl err =>
      Some (Wrapped err "trusted validator set in not tendermint validator set type")
  | inr tmTrustedValidators =>
      let tvalHash := ValidatorSet_Hash tmTrustedValidators in
      if negb (bytes_Equal (NextValidatorsHash consState) tvalHash) then
        Some (Wrapped ErrInvalidValidatorSet
                "trusted validators does not hash to latest trusted validators")
      else None
  end.

(** [checkValidity]. *)
Definition checkValidity (clientState : ClientState) (consState : ConsensusState)
    (header : Header) (currentTimestamp : Time) : option Error :=
  match checkTrustedHeader header consState with
  | Some err => Some err
  | None =>
  if negb (RevisionNumber (GetHeight header)
           =? RevisionNumber (TrustedHeight header))%N then
    Some (Wrapped ErrInvalidHeaderHeight
            "header height revision does not match trusted header revision")
  else
  match ValidatorSetFromProto (TrustedValidators header) with
  | inl err =>
      Some (Wrapped err "trusted validator set in not tendermint validator set type")
  | inr tmTrustedValidators =>
  match SignedHeaderFromProto (SignedHeader header) with
  | inl err =>
      Some (Wrapped err "signed header in not tendermint signed header type")
  | inr tmSignedHeader =>
  match ValidatorSetFromProto (ValidatorSet header) with
  | inl err =>
      Some (Wrapped err "validator set in not tendermint validator set type")
  | inr tmValidatorSet =>
  if LTE (GetHeight header) (TrustedHeight header) then
    Some (Wrapped ErrInvalidHeader "header height <= consensus state height")
  else
    let chainID := ChainId clientState in
    let chainID :=
      if IsRevisionFormat chainID
      then (SetRevisionNumber chainID (RevisionNumber (GetHeight header))).1
      else chainID in
    let trustedHeader :=
      {| tmtypes.ChainID := chainID;
         tmtypes.Height := int64_of_uint64 (RevisionHeight (TrustedHeight header));
         tmtypes.Time := Timestamp consState;
         tmtypes.ValidatorsHash := [];
         tmtypes.NextValidatorsHash := NextValidatorsHash consState;
         tmtypes.AppHash := [] |} in
    let signedHeader :=
      {| tmtypes.sh_Header := trustedHeader; tmtypes.sh_Commit := None |} in
    match light_Verify signedHeader tmTrustedValidators tmSignedHeader
            tmValidatorSet (TrustingPeriod clientState) currentTimestamp
            (MaxClockDrift clientState) (ToTendermint (TrustLevel clientState)) with
    | Some err => Some (Wrapped err "failed to verify header")
    | None => None
    end
  end end end end.

(** The signed header that [checkValidity] builds from the trusted consensus
    state and hands to [light.Verify] as the trusted header. *)
Definition trustedSignedHeader (clientState : ClientState) (consState : ConsensusState)
    (header : Header) : tmtypes.SignedHeader :=
  let chainID := ChainId clientState in
  let chainID :=
    if IsRevisionFormat chainID
    then (SetRevisionNumber chainID (RevisionNumber (GetHeight header))).1
    else chainID in
  {| tmtypes.sh_Header :=
       {| tmtypes.ChainID := chainID;
          tmtypes.Height := int64_of_uint64 (RevisionHeight (TrustedHeight header));
          tmtypes.Time := Timestamp consState;
          tmtypes.ValidatorsHash := [];
          tmtypes.NextValidatorsHash := NextValidatorsHash consState;
          tmtypes.AppHash := [] |};
     tmtypes.sh_Commit := None |}.

(** The variables the pruning callback captures and assigns. *)
Record PruneVars := {
  pruneHeight : option Height;
  pruneError : option Error
}.

(** The callback [pruneCb] of [pruneOldestConsensusState]; it always asks
    the iteration to stop. *)
Definition pruneCb (cs : ClientState) (ctx : Context) (clientStore : ClientStore)
    (height : Height) (vars : PruneVars) : bool * PruneVars :=
  match GetConsensusState clientStore height with
  | inl err =>
      (true, {| pruneHeight := pruneHeight vars; pruneError := Some err |})
  | inr consState =>
      let vars :=
        if IsExpired cs (Timestamp consState) (BlockTime ctx)
        then {| pruneHeight := Some height; pruneError := pruneError vars |}
        else vars in
      (true, vars)
  end.

(** [pruneOldestConsensusState]: the store after the call, or the value it
    panics with. *)
Definition pruneOldestConsensusState (cs : ClientState) (ctx : Context)
    (clientStore : ClientStore) : Outcome ClientStore :=
  let vars :=
    IterateConsensusStateAscending clientStore (pruneCb cs ctx clientStore)
      {| pruneHeight := None; pruneError := None |} in
  match pruneError vars with
  | Some err => Panic err
  | None =>
      match pruneHeight vars with
      | Some h =>
          Ok (deleteConsensusMetadata (deleteConsensusState clientStore h) h)
      | None => Ok clientStore
      end
  end.

(** [UpdateState]: the returned pair, or the error or panic, and the client
    store after the call. *)
Definition UpdateState (cs : ClientState) (ctx : Context)
    (clientStore : ClientStore) (clientMsg : ClientMessage)
  : Outcome (ClientState * ConsensusState) * ClientStore :=
  match clientMsg with
  | MsgMisbehaviour _ =>
      (Err (Wrapped ErrInvalidClientType "expected type *Header"), clientStore)
  | MsgHeader header =>
      match GetConsensusState clientStore (GetHeight header) with
      | inr consensusState => (Ok (cs, consensusState), clientStore)
      | inl _ =>
          match pruneOldestConsensusState cs ctx clientStore with
          | Panic err => (Panic err, clientStore)
          | Err err => (Err err, clientStore)
          | Ok clientStore =>
              let height := GetHeight header in
              let cs :=
                if GT height (LatestHeight cs) then set_LatestHeight cs height
                else cs in
              let consensusState :=
                {| Timestamp := GetTime header;
                   Root := tmtypes.AppHash (tmtypes.sh_Header (SignedHeader header));
                   NextValidatorsHash :=
                     tmtypes.NextValidatorsHash
                       (tmtypes.sh_Header (SignedHeader header)) |} in
              let clientStore :=
                setConsensusMetadata ctx clientStore (GetHeight header) in
              (Ok (cs, consensusState), clientStore)
          end
      end
  end.

(** [CheckHeaderAndUpdateState]: the returned pair, or the error or panic,
    and the client store after the call. *)
Definition CheckHeaderAndUpdateState (cs : ClientState) (ctx : Context)
    (clientStore : ClientStore) (header : ClientMessage)
  : Outcome (ClientState * ConsensusState) * ClientStore :=
  match header with
  | MsgMisbehaviour _ =>
      (Err (Wrapped ErrInvalidHeader "expected type *Header"), clientStore)
  | MsgHeader tmHeader =>
      let '(duplicate, conflictingHeader) :=
        match GetConsensusState clientStore (GetHeight tmHeader) with
        | inr prevConsState =>
            if bool_decide (prevConsState = Header_ConsensusState tmHeader)
            then (Some prevConsState, false)
            else (None, true)
        | inl _ => (None, false)
        end in
      match duplicate with
      | Some prevConsState => (Ok (cs, prevConsState), clientStore)
      | None =>
      match GetConsensusState clientStore (TrustedHeight tmHeader) with
      | inl err =>
          (Err (Wrapped err
                  "could not get consensus state from clientstore at TrustedHeight"),
           clientStore)
      | inr trustedConsState =>
      match checkValidity cs trustedConsState tmHeader (BlockTime ctx) with
      | Some err => (Err err, clientStore)
      | None =>
          let consState := Header_ConsensusState tmHeader in
          if conflictingHeader then
            (Ok (set_FrozenHeight cs FrozenHeight, consState), clientStore)
          else
            let prev := GetPreviousConsensusState clientStore (GetHeight tmHeader) in
            let next := GetNextConsensusState clientStore (GetHeight tmHeader) in
            if match prev with
               | Some prevCons =>
                   negb (Before (Timestamp prevCons) (Timestamp consState))
               | None => false
               end
            then (Ok (set_FrozenHeight cs FrozenHeight, consState), clientStore)
            else if match next with
                    | Some nextCons =>
                        negb (After (Timestamp nextCons) (Timestamp consState))
                    | None => false
                    end
            then (Ok (set_FrozenHeight cs FrozenHeight, consState), clientStore)
            else UpdateState cs ctx clientStore (MsgHeader tmHeader)
      end end end
  end.

(** [CheckForMisbehaviour]: duplicate-height and time-monotonicity
    misbehaviour of a header; a [Misbehaviour] message always counts. *)
Definition CheckForMisbehaviour (cs : ClientState) (ctx : Context)
    (clientStore : ClientStore) (msg : ClientMessage) : bool :=
  match msg with
  | MsgHeader tmHeader =>
      let consState := Header_ConsensusState tmHeader in
      match GetConsensusState clientStore (GetHeight tmHeader) with
      | inr prevConsState =>
          if bool_decide (prevConsState = Header_ConsensusState tmHeader)
          then false
          else true
      | inl _ =>
          let prev := GetPreviousConsensusState clientStore (GetHeight tmHeader) in
          let next := GetNextConsensusState clientStore (GetHeight tmHeader) in
          if match prev with
             | Some prevCons =>
                 negb (Before (Timestamp prevCons) (Timestamp consState))
             | None => false
             end
          then true
          else if match next with
                  | Some nextCons =>
                      negb (After (Timestamp nextCons) (Timestamp consState))
                  | None => false
                  end
          then true
          else false
      end
  | MsgMisbehaviour _ => true
  end.

(** Modelled from the spec: the stores a client goes through under header
    updates. A client is created with one consensus state; after an update
    that returns a client that is not frozen, the host records the returned
    consensus state at the header's height. *)
Inductive Reachable : ClientStore -> Prop :=
| Reachable_initial height c metadata :
    Reachable {| consensusStates := {[ height := Stored c ]};
                 consensusMetadata := metadata |}
| Reachable_update s cs ctx header cs' c' s' :
    Reachable s ->
    CheckHeaderAndUpdateState cs ctx s (MsgHeader header) = (Ok (cs', c'), s') ->
    IsZero (FrozenHeight_ cs') = true ->
    Reachable (SetConsensusState s' (GetHeight header) c').
End Update.

End Tendermint.

(** ** Receiving packets (04-channel) *)

Module Channel.
Import clienttypes.

Inductive Order := ORDERED | UNORDERED.
Inductive State := INIT | TRYOPEN | OPEN | CLOSED.

#[global] Instance Order_eq_decision : EqDecision Order.
Proof. solve_decision. Defined.

Record Channel := {
  Ordering : Order;
  ChannelState : State;
  CounterpartyPortId : string;
  CounterpartyChannelId : string;
  ConnectionId : string
}.

Record Packet := {
  Sequence : N;
  SourcePort : string;
  SourceChannel : string;
  DestinationPort : string;
  DestinationChannel : string;
  Data : bytes;
  TimeoutHeight : Height;
  TimeoutTimestamp : N
}.

(** The failures of [recvPacket], after the spec's error taxonomy. *)
Inductive RecvError :=
| NotFound
| OrderingViolation
| TimeoutElapsed
| ProofInvalid.

(** An application event, or its conversion to an error event when the
    callback reverts. *)
Inductive Event :=
| AppEvent (attributes : bytes)
| ErrorEvent (attributes : bytes).

Section RecvPacket.
(** The state of the receiving application. *)
Context {AppState : Type}.

(** The application callback [onRecvPacket(packet)]: the new application
    state, the events it emits, the synchronous acknowledgement if any, and
    whether it succeeded. *)
Variable onRecvPacket :
  Packet -> AppState -> AppState * list bytes * option bytes * bool.

(** The Merkle proof verifier, [verifyMembership], applied to the packet
    commitment at the proof height. *)
Variable verifyPacketCommitment : Packet -> bytes -> Height -> bool.

(** Modelled from the spec: the channel and packet state of the channel
    keeper (channels, receive counters, receipts, acknowledgements), the
    state of the application behind the port, the packets its receive
    callback was invoked on, and the events emitted so far. *)
Record KeeperState := {
  channels : gmap (string * string) Channel;
  nextSequenceRecv : gmap (string * string) N;
  packetReceipts : gset (string * string * N);
  packetAcknowledgements : gmap (string * string * N) bytes;
  application : AppState;
  callbackInvocations : list Packet;
  events : list Event
}.

(** The block height and time of the receiving chain. *)
Record HostContext := {
  hostHeight : Height;
  hostTime : N
}.

(** Modelled from the spec: step 3 of [recvPacket], a timeout bound that is
    set (non-zero) has elapsed once the destination height or time is no
    longer before it. *)
Definition timeoutElapsed (ctx : HostContext) (packet : Packet) : bool :=
  (negb (IsZero (TimeoutHeight packet))
     && negb (LT (hostHeight ctx) (TimeoutHeight packet)))
  || (negb (TimeoutTimestamp packet =? 0)%N
        && negb (hostTime ctx <? TimeoutTimestamp packet)%N).

Definition receiptKey (packet : Packet) : string * string * N :=
  (DestinationPort packet, DestinationChannel packet, Sequence packet).

(** Modelled from the spec: steps 5 to 7 of [recvPacket], the callback and
    the writes that follow it. *)
Definition deliver (st : KeeperState) (channel : Channel) (packet : Packet)
  : KeeperState :=
  let '(app', appEvents, ack, success) := onRecvPacket packet (application st) in
  let invoked := callbackInvocations st ++ [packet] in
  if negb success then
    {| channels := channels st;
       nextSequenceRecv := nextSequenceRecv st;
       packetReceipts := packetReceipts st;
       packetAcknowledgements := packetAcknowledgements st;
       application := application st;
       callbackInvocations := invoked;
       events := events st ++ (ErrorEvent <$> appEvents) |}
  else
    {| channels := channels st;
       nextSequenceRecv :=
         match Ordering channel with
         | ORDERED =>
             <[(DestinationPort packet, DestinationChannel packet) :=
                 (Sequence packet + 1)%N]> (nextSequenceRecv st)
         | UNORDERED => nextSequenceRecv st
         end;
       packetReceipts :=
         match Ordering channel with
         | ORDERED => packetReceipts st
         | UNORDERED => {[receiptKey packet]} ∪ packetReceipts st
         end;
       packetAcknowledgements :=
         match ack with
         | Some ackBytes => <[receiptKey packet := ackBytes]> (packetAcknowledgements st)
         | None => packetAcknowledgements st
         end;
       application := app';
       callbackInvocations := invoked;
       events := events st ++ (AppEvent <$> appEvents) |}.

(** Modelled from the spec: [recvPacket(packet, proof, proofHeight)] of the
    channel keeper, which is not among the sources (only its handler test
    is): resolve the channel, check the ordering or detect the replay,
    check the timeout, verify the proof, then deliver. [None] is
    success. *)
Definition recvPacket (ctx : HostContext) (st : KeeperState) (packet : Packet)
    (proof : bytes) (proofHeight : Height) : option RecvError * KeeperState :=
  match channels st !! (DestinationPort packet, DestinationChannel packet) with
  | None => (Some NotFound, st)
  | Some channel =>
      let replay :=
        match Ordering channel with
        | UNORDERED => bool_decide (receiptKey packet ∈ packetReceipts st)
        | ORDERED => false
        end in
      let outOfOrder :=
        match Ordering channel with
        | ORDERED =>
            negb (bool_decide
                    (nextSequenceRecv st
                       !! (DestinationPort packet, DestinationChannel packet)
                     = Some (Sequence packet)))
        | UNORDERED => false
        end in
      if outOfOrder then (Some OrderingViolation, st)
      else if replay then (None, st)
      else if timeoutElapsed ctx packet then (Some TimeoutElapsed, st)
      else if negb (verifyPacketCommitment packet proof proofHeight)
      then (Some ProofInvalid, st)
      else (None, deliver st channel packet)
  end.
End RecvPacket.

End Channel.

(** ** Store paths of ICS 04 (24-host) *)

Module host.

Definition KeySequencePrefix : string := "sequences".
Definition KeyNextSeqSendPrefix : string := "nextSequenceSend".
Definition KeyNextSeqRecvPrefix : string := "nextSequenceRecv".
Definition KeyNextSeqAckPrefix : string := "nextSequenceAck".
Definition KeyPacketCommitmentPrefix : string := "commitments".
Definition KeyPacketAckPrefix : string := "acks".
Definition KeyPacketReceiptPrefix : string := "receipts".
Definition KeyCounterpartyNextSequenceSendPrefix : string :=
  "counterpartyNextSequenceSend".
Definition KeyPruningSequenceStart : string := "pruningSequenceStart".
Definition KeyPruningSequenceEnd : string := "pruningSequenceEnd".

(** [fmt.Sprintf("%d", n)] for a [uint64]. *)
Definition decimal (n : N) : string := NilEmpty.string_of_uint (N.to_uint n).

(** [fmt.Sprintf("%s/%s", a, b)]. *)
Definition slash (a b : string) : string := a +:+ "/" +:+ b.

Section Paths.
(** [channelPath] is defined in another file of the package. *)
Variable channelPath : string -> string -> string.

Definition sequencePath (sequence : N) : string :=
  slash KeySequencePrefix (decimal sequence).

Definition NextSequenceSendPath (portID channelID : string) : string :=
  slash KeyNextSeqSendPrefix (channelPath portID channelID).
Definition NextSequenceSendKey (portID channelID : string) : bytes :=
  list_byte_of_string (NextSequenceSendPath portID channelID).

Definition NextSequenceRecvPath (portID channelID : string) : string :=
  slash KeyNextSeqRecvPrefix (channelPath portID channelID).
Definition NextSequenceRecvKey (portID channelID : string) : bytes :=
  list_byte_of_string (NextSequenceRecvPath portID channelID).

Definition NextSequenceAckPath (portID channelID : string) : string :=
  slash KeyNextSeqAckPrefix (channelPath portID channelID).
Definition NextSequenceAckKey (portID channelID : string) : bytes :=
  list_byte_of_string (NextSequenceAckPath portID channelID).

Definition PacketCommitmentPrefixPath (portID channelID : string) : string :=
  slash KeyPacketCommitmentPrefix
    (slash (channelPath portID channelID) KeySequencePrefix).
Definition PacketCommitmentPath (portID channelID : string) (sequence : N) : string :=
  slash (PacketCommitmentPrefixPath portID channelID) (decimal sequence).
Definition PacketCommitmentKey (portID channelID : string) (sequence : N) : bytes :=
  list_byte_of_string (PacketCommitmentPath portID channelID sequence).

Definition PacketAcknowledgementPrefixPath (portID channelID : string) : string :=
  slash KeyPacketAckPrefix
    (slash (channelPath portID channelID) KeySequencePrefix).
Definition PacketAcknowledgementPath (portID channelID : string) (sequence : N)
  : string :=
  slash (PacketAcknowledgementPrefixPath portID channelID) (decimal sequence).
Definition PacketAcknowledgementKey (portID channelID : string) (sequence : N)
  : bytes :=
  list_byte_of_string (PacketAcknowledgementPath portID channelID sequence).

Definition PacketReceiptPath (portID channelID : string) (sequence : N) : string :=
  slash KeyPacketReceiptPrefix
    (slash (channelPath portID channelID) (sequencePath sequence)).
Definition PacketReceiptKey (portID channelID : string) (sequence : N) : bytes :=
  list_byte_of_string (PacketReceiptPath portID channelID sequence).

Definition CounterpartyNextSequenceSendPath (portID channelID : string) : string :=
  slash KeyCounterpartyNextSequenceSendPrefix (channelPath portID channelID).
Definition CounterpartyNextSequenceSendKey (portID channelID : string) : bytes :=
  list_byte_of_string (CounterpartyNextSequenceSendPath portID channelID).

Definition PruningSequenceStartPath (portID channelID : string) : string :=
  slash KeyPruningSequenceStart (channelPath portID channelID).
Definition PruningSequenceStartKey (portID channelID : string) : bytes :=
  list_byte_of_string (PruningSequenceStartPath portID channelID).

Definition PruningSequenceEndPath (portID channelID : string) : string :=
  slash KeyPruningSequenceEnd (channelPath portID channelID).
Definition PruningSequenceEndKey (portID channelID : string) : bytes :=
  list_byte_of_string (PruningSequenceEndPath portID channelID).
End Paths.

(** The part of a path before its first "/". *)
Fixpoint firstSegment (path : string) : string :=
  match path with
  | EmptyString => EmptyString
  | String c rest =>
      if Ascii.eqb c (Ascii.ascii_of_nat 47) then EmptyString
      else String c (firstSegment rest)
  end.

End host.

(** ** Concrete collaborators, stores and headers *)

Module Examples.
Import clienttypes Tendermint.

(** A header's height: revision 0 and the height of the signed header. *)
Definition exampleGetHeight (h : Header) : Height :=
  NewHeight 0 (Z.to_N (tmtypes.Height (tmtypes.sh_Header (SignedHeader h)))).

(** A stand-in for the validator-set hash: the public keys, concatenated. *)
Definition exampleHash (vals : tmtypes.ValidatorSet) : bytes :=
  concat (tmtypes.PubKey <$> tmtypes.Validators vals).

(** A verifier that performs the time checks of light-client verification
    (the trusted header has not expired, the new header is later than the
    trusted one and not beyond the clock drift) and accepts every commit. *)
Definition exampleVerify (trusted : tmtypes.SignedHeader)
    (trustedVals : tmtypes.ValidatorSet) (untrusted : tmtypes.SignedHeader)
    (untrustedVals : tmtypes.ValidatorSet) (trustingPeriod : Z) (now : Z)
    (maxClockDrift : Z) (trustLevel : tmtypes.Fraction) : option Error :=
  let trustedTime := tmtypes.Time (tmtypes.sh_Header trusted) in
  let newTime := tmtypes.Time (tmtypes.sh_Header untrusted) in
  if trustedTime + trustingPeriod <=? now then
    Some (ErrLibrary "old header has expired")
  else if newTime <=? trustedTime then
    Some (ErrLibrary "expected new header time to be after old header time")
  else if now + maxClockDrift <=? newTime then
    Some (ErrLibrary "new header has a time from the future")
  else None.

#[global] Instance exampleCollaborators : Collaborators := {|
  GetHeight := exampleGetHeight;
  IsRevisionFormat := fun _ => false;
  SetRevisionNumber := fun chainID _ => (chainID, None);
  ValidatorSetFromProto := inr;
  SignedHeaderFromProto := inr;
  ValidatorSet_Hash := exampleHash;
  light_Verify := exampleVerify
|}.

Definition vals : tmtypes.ValidatorSet :=
  {| tmtypes.Validators := [ {| tmtypes.PubKey := [x01]; tmtypes.VotingPower := 10 |} ];
     tmtypes.Proposer := None |}.

(** A client with a trusting period of 100 and a clock drift of 10. *)
Definition client : ClientState :=
  {| ChainId := "testchain";
     TrustLevel := {| tmtypes.Numerator := 1; tmtypes.Denominator := 3 |};
     TrustingPeriod := 100;
     UnbondingPeriod := 200;
     MaxClockDrift := 10;
     FrozenHeight_ := ZeroHeight;
     LatestHeight := NewHeight 0 5 |}.

Definition mkHeader (height : Z) (time : Z) (appHash : bytes) (trusted : N) : Header :=
  {| SignedHeader :=
       {| tmtypes.sh_Header :=
            {| tmtypes.ChainID := "testchain";
               tmtypes.Height := height;
               tmtypes.Time := time;
               tmtypes.ValidatorsHash := [x01];
               tmtypes.NextValidatorsHash := [x01];
               tmtypes.AppHash := appHash |};
          tmtypes.sh_Commit :=
            Some {| tmtypes.CommitHeight := height;
                    tmtypes.BlockHash := appHash;
                    tmtypes.Signatures := [[x01]] |} |};
     ValidatorSet := vals;
     TrustedHeight := NewHeight 0 trusted;
     TrustedValidators := vals |}.

Definition mkConsensusState (time : Z) (root : bytes) : ConsensusState :=
  {| Timestamp := time; Root := root; NextValidatorsHash := [x01] |}.

Definition mkStore (entries : list (Height * StoreValue)) : ClientStore :=
  {| consensusStates := list_to_map entries; consensusMetadata := ∅ |}.

Definition at_ (time : Z) : Context :=
  {| BlockTime := time; SelfHeight := NewHeight 0 1000 |}.

(** Height 5 trusted at time 0 and a state for height 10 at time 50. *)
Definition storeWithHeight10 : ClientStore :=
  mkStore [ (NewHeight 0 5, Stored (mkConsensusState 0 [x05]));
            (NewHeight 0 10, Stored (mkConsensusState 50 [xaa])) ].

(** Height 5 trusted at time 0 and a state for height 12 at time 40. *)
Definition storeWithHeight12 : ClientStore :=
  mkStore [ (NewHeight 0 5, Stored (mkConsensusState 0 [x05]));
            (NewHeight 0 12, Stored (mkConsensusState 40 [x0c])) ].

(** Only the trusted state, at height 1 and time 0. *)
Definition storeTrustedOnly : ClientStore :=
  mkStore [ (NewHeight 0 1, Stored (mkConsensusState 0 [x01])) ].

(** An undecodable earliest entry below the trusted state of height 2. *)
Definition storeCorrupted : ClientStore :=
  mkStore [ (NewHeight 0 1, Undecodable);
            (NewHeight 0 2, Stored (mkConsensusState 0 [x02])) ].

(** Two states, the earlier of which is expired at time 150. *)
Definition storeTwoStates : ClientStore :=
  mkStore [ (NewHeight 0 1, Stored (mkConsensusState 0 [x01]));
            (NewHeight 0 2, Stored (mkConsensusState 90 [x02])) ].

(** *** A receiving application and an unordered channel *)

(** An application that counts the packets it received and acknowledges each
    of them. *)
Definition countingApp (packet : Channel.Packet) (received : nat)
  : nat * list bytes * option bytes * bool :=
  (S received, [Channel.Data packet], Some [x01], true).

Definition acceptProof (packet : Channel.Packet) (proof : bytes) (h : Height) : bool :=
  true.

Definition unorderedChannel : Channel.Channel :=
  {| Channel.Ordering := Channel.UNORDERED;
     Channel.ChannelState := Channel.OPEN;
     Channel.CounterpartyPortId := "transfer";
     Channel.CounterpartyChannelId := "channel-0";
     Channel.ConnectionId := "connection-0" |}.

Definition keeperAtStart : @Channel.KeeperState nat :=
  {| Channel.channels := {[ ("transfer", "channel-1") := unorderedChannel ]};
     Channel.nextSequenceRecv := {[ ("transfer", "channel-1") := 1%N ]};
     Channel.packetReceipts := ∅;
     Channel.packetAcknowledgements := ∅;
     Channel.application := 0%nat;
     Channel.callbackInvocations := [];
     Channel.events := [] |}.

Definition firstPacket : Channel.Packet :=
  {| Channel.Sequence := 1;
     Channel.SourcePort := "transfer";
     Channel.SourceChannel := "channel-0";
     Channel.DestinationPort := "transfer";
     Channel.DestinationChannel := "channel-1";
     Channel.Data := [x2a];
     Channel.TimeoutHeight := NewHeight 1 10000;
     Channel.TimeoutTimestamp := 0 |}.

Definition hostAt100 : Channel.HostContext :=
  {| Channel.hostHeight := NewHeight 1 100; Channel.hostTime := 100 |}.

(** The keeper after [firstPacket] has been received once. *)
Definition keeperAfterFirstRecv : @Channel.KeeperState nat :=
  (Channel.recvPacket countingApp acceptProof hostAt100 keeperAtStart firstPacket
     [] (NewHeight 1 99)).2.

End Examples.
(** * Properties *)

Module HeightOrder.
Import clienttypes.

Ltac height_cases :=
  unfold HeightLE, LT, LTE, GT, EQ, IsZero, Compare in *; simpl in *;
  repeat match goal with
  | |- context [(?a =? ?b)%N] => destruct (N.eqb_spec a b)
  | H : context [(?a =? ?b)%N] |- _ => destruct (N.eqb_spec a b)
  | |- context [(?a ?= ?b)%N] => destruct (N.compare_spec a b)
  | H : context [(?a ?= ?b)%N] |- _ => destruct (N.compare_spec a b)
  end; simpl in *; try congruence; try lia.

Lemma LT_spec a b :
  LT a b = true <->
  (RevisionNumber a < RevisionNumber b
   \/ (RevisionNumber a = RevisionNumber b /\ RevisionHeight a < RevisionHeight b))%N.
Proof. height_cases. Qed.

Lemma LTE_spec a b :
  LTE a b = true <->
  (RevisionNumber a < RevisionNumber b
   \/ (RevisionNumber a = RevisionNumber b /\ RevisionHeight a <= RevisionHeight b))%N.
Proof. height_cases. Qed.

Lemma GT_LT a b : GT a b = LT b a.
Proof. height_cases. Qed.

Lemma LTE_GT a b : LTE a b = negb (GT a b).
Proof. height_cases. Qed.

Lemma LT_irrefl a : LT a a = false.
Proof. height_cases. Qed.

Lemma LT_LTE a b : LT a b = true -> LTE a b = true.
Proof. height_cases. Qed.

Lemma LTE_LT_trans a b c : LTE a b = true -> LT b c = true -> LT a c = true.
Proof. rewrite LTE_spec, !LT_spec. lia. Qed.

Lemma LT_LTE_trans a b c : LT a b = true -> LTE b c = true -> LT a c = true.
Proof. rewrite LTE_spec, !LT_spec. lia. Qed.

Lemma LTE_antisym a b : LTE a b = true -> LTE b a = true -> a = b.
Proof.
  rewrite !LTE_spec. destruct a as [an ah], b as [bn bh]; simpl.
  intros ? ?. f_equal; lia.
Qed.

Lemma LTE_cases a b : LTE a b = true -> a = b \/ LT a b = true.
Proof.
  rewrite LTE_spec, LT_spec. destruct a as [an ah], b as [bn bh]; simpl.
  intros Hle. destruct (decide (an = bn /\ ah = bh)) as [[-> ->]|]; [by left|].
  right. lia.
Qed.

Lemma GT_neq a b : GT a b = true -> a <> b.
Proof. intros Hgt ->. rewrite GT_LT, LT_irrefl in Hgt. discriminate. Qed.

#[global] Instance HeightLE_transitive : Transitive HeightLE.
Proof. intros a b c. unfold HeightLE. rewrite !LTE_spec. lia. Qed.

#[global] Instance HeightLE_total : Total HeightLE.
Proof. intros a b. unfold HeightLE. rewrite !LTE_spec. lia. Qed.

#[global] Instance HeightLE_reflexive : Reflexive HeightLE.
Proof. intros a. unfold HeightLE. rewrite LTE_spec. lia. Qed.

End HeightOrder.

(** ** Sorted lists: the first and the last element that satisfy a test *)

Section SortedLists.
Context {A : Type} (R : relation A) `{!Reflexive R}.
Context (P : A -> Prop) `{!forall x, Decision (P x)}.

Lemma filter_empty_none (l : list A) :
  filter P l = [] -> forall y, y ∈ l -> ~ P y.
Proof.
  intros Hnil y Hy HP.
  assert (y ∈ filter P l) as Hin by (apply list_elem_of_filter; done).
  rewrite Hnil in Hin. by apply not_elem_of_nil in Hin.
Qed.

Lemma head_filter_least (l : list A) x :
  StronglySorted R l -> head (filter P l) = Some x ->
  P x /\ x ∈ l /\ forall y, y ∈ l -> P y -> R x y.
Proof.
  induction 1 as [|a l Hsorted IH Hall]; [done|].
  rewrite filter_cons. destruct (decide (P a)) as [Ha|Ha]; simpl.
  - intros [= <-]. split_and!; [done|by left|].
    intros y [->|Hy]%elem_of_cons _; [reflexivity|].
    by eapply Forall_forall in Hall.
  - intros Hhead. destruct (IH Hhead) as (HP & Hin & Hleast).
    split_and!; [done|by right|].
    intros y [->|Hy]%elem_of_cons HPy; [done|]. by apply Hleast.
Qed.

Lemma last_filter_greatest (l : list A) x :
  StronglySorted R l -> last (filter P l) = Some x ->
  P x /\ x ∈ l /\ forall y, y ∈ l -> P y -> R y x.
Proof.
  induction 1 as [|a l Hsorted IH Hall]; [done|].
  rewrite filter_cons. destruct (decide (P a)) as [Ha|Ha]; simpl.
  - destruct (filter P l) as [|b l'] eqn:Hfilter.
    + intros [= <-]. split_and!; [done|by left|].
      intros y [->|Hy]%elem_of_cons HPy; [reflexivity|].
      by destruct (filter_empty_none l Hfilter y).
    + change (last (a :: b :: l')) with (last (b :: l')). intros Hlast.
      destruct (IH Hlast) as (HP & Hin & Hgreatest).
      split_and!; [done|by right|].
      intros y [->|Hy]%elem_of_cons HPy; [|by apply Hgreatest].
      by eapply Forall_forall in Hall.
  - intros Hlast. destruct (IH Hlast) as (HP & Hin & Hgreatest).
    split_and!; [done|by right|].
    intros y [->|Hy]%elem_of_cons HPy; [done|]. by apply Hgreatest.
Qed.
End SortedLists.

(** ** The heights of a client store *)

Module StoreFacts.
Import clienttypes Tendermint HeightOrder.

Lemma elem_of_ascendingHeights s h :
  h ∈ ascendingHeights s <-> is_Some (consensusStates s !! h).
Proof.
  unfold ascendingHeights. rewrite merge_sort_Permutation, list_elem_of_fmap.
  split.
  - intros [[h' v] [-> Hin]]. apply elem_of_map_to_list in Hin. by exists v.
  - intros [v Hv]. exists (h, v). split; [done|]. by apply elem_of_map_to_list.
Qed.

Lemma ascendingHeights_sorted s : StronglySorted HeightLE (ascendingHeights s).
Proof. apply StronglySorted_merge_sort; apply _. Qed.

Lemma ascendingHeights_nil s :
  ascendingHeights s = [] -> consensusStates s = ∅.
Proof.
  intros Hnil. apply map_empty. intros h.
  destruct (consensusStates s !! h) as [v|] eqn:Hv; [|done].
  assert (h ∈ ascendingHeights s) as Hin by (apply elem_of_ascendingHeights; eauto).
  rewrite Hnil in Hin. by apply not_elem_of_nil in Hin.
Qed.

Lemma Earliest_unique s h0 h0' : Earliest s h0 -> Earliest s h0' -> h0 = h0'.
Proof. intros [H1 H2] [H1' H2']. apply LTE_antisym; auto. Qed.

Lemma head_ascendingHeights s h0 :
  head (ascendingHeights s) = Some h0 <-> Earliest s h0.
Proof.
  split.
  - intros Hhead. apply head_Some in Hhead as [l Hl].
    pose proof (ascendingHeights_sorted s) as Hsorted. rewrite Hl in Hsorted.
    apply StronglySorted_inv in Hsorted as [_ Hall].
    split.
    + apply elem_of_ascendingHeights. rewrite Hl. by left.
    + intros h Hh. apply elem_of_ascendingHeights in Hh. rewrite Hl in Hh.
      apply elem_of_cons in Hh as [->|Hh]; [apply HeightLE_reflexive|].
      by eapply Forall_forall in Hall.
  - intros Hearliest.
    destruct (ascendingHeights s) as [|h l] eqn:Hl.
    + apply ascendingHeights_nil in Hl. destruct Hearliest as [[v Hv] _].
      rewrite Hl in Hv. by rewrite lookup_empty in Hv.
    + simpl. f_equal. apply (Earliest_unique s); [|done].
      pose proof (ascendingHeights_sorted s) as Hsorted. rewrite Hl in Hsorted.
      apply StronglySorted_inv in Hsorted as [_ Hall].
      split.
      * apply elem_of_ascendingHeights. rewrite Hl. by left.
      * intros h' Hh'. apply elem_of_ascendingHeights in Hh'. rewrite Hl in Hh'.
        apply elem_of_cons in Hh' as [->|Hh']; [apply HeightLE_reflexive|].
        by eapply Forall_forall in Hall.
Qed.

Lemma getTmConsensusState_Some s h c :
  getTmConsensusState s h = Some c <-> consensusStates s !! h = Some (Stored c).
Proof.
  unfold getTmConsensusState.
  destruct (consensusStates s !! h) as [[c'|]|]; naive_solver.
Qed.

Lemma GetConsensusState_inr s h c :
  GetConsensusState s h = inr c <-> consensusStates s !! h = Some (Stored c).
Proof.
  unfold GetConsensusState.
  destruct (consensusStates s !! h) as [[c'|]|]; naive_solver.
Qed.

Lemma GetConsensusState_inl_Readable s h e :
  Readable s -> GetConsensusState s h = inl e -> consensusStates s !! h = None.
Proof.
  unfold GetConsensusState. intros Hr.
  destruct (consensusStates s !! h) as [[c'|]|] eqn:Hv; try done.
  by destruct (Hr h _ Hv).
Qed.

(** [GetPreviousConsensusState] returns the state at the largest stored height
    below the given one. *)
Lemma GetPreviousConsensusState_Some s h c :
  GetPreviousConsensusState s h = Some c ->
  exists hp, LT hp h = true /\ consensusStates s !! hp = Some (Stored c) /\
    forall h', is_Some (consensusStates s !! h') -> LT h' h = true -> LTE h' hp = true.
Proof.
  unfold GetPreviousConsensusState.
  destruct (last _) as [hp|] eqn:Hlast; [|done]. intros Hc.
  apply (last_filter_greatest HeightLE) in Hlast as (Hlt & Hin & Hmax);
    [|apply ascendingHeights_sorted].
  exists hp. split_and!; [done|by apply getTmConsensusState_Some|].
  intros h' Hh' Hlt'. apply Hmax; [|done]. by apply elem_of_ascendingHeights.
Qed.

Lemma GetPreviousConsensusState_None s h :
  Readable s -> GetPreviousConsensusState s h = None ->
  forall h', is_Some (consensusStates s !! h') -> LT h' h = false.
Proof.
  unfold GetPreviousConsensusState. intros Hr.
  destruct (last _) as [hp|] eqn:Hlast.
  - apply (last_filter_greatest HeightLE) in Hlast as (Hlt & Hin & Hmax);
      [|apply ascendingHeights_sorted].
    apply elem_of_ascendingHeights in Hin as [v Hv].
    unfold getTmConsensusState. rewrite Hv.
    destruct v; [done|]. by destruct (Hr hp _ Hv).
  - intros _ h' Hh'. apply last_None in Hlast.
    apply elem_of_ascendingHeights in Hh'.
    apply (filter_empty_none _ _ Hlast) in Hh'. by destruct (LT h' h).
Qed.

(** [GetNextConsensusState] returns the state at the smallest stored height
    above the given one. *)
Lemma GetNextConsensusState_Some s h c :
  GetNextConsensusState s h = Some c ->
  exists hn, GT hn h = true /\ consensusStates s !! hn = Some (Stored c) /\
    forall h', is_Some (consensusStates s !! h') -> GT h' h = true -> LTE hn h' = true.
Proof.
  unfold GetNextConsensusState.
  destruct (head _) as [hn|] eqn:Hhead; [|done]. intros Hc.
  apply (head_filter_least HeightLE) in Hhead as (Hgt & Hin & Hmin);
    [|apply ascendingHeights_sorted].
  exists hn. split_and!; [done|by apply getTmConsensusState_Some|].
  intros h' Hh' Hgt'. apply Hmin; [|done]. by apply elem_of_ascendingHeights.
Qed.

Lemma GetNextConsensusState_None s h :
  Readable s -> GetNextConsensusState s h = None ->
  forall h', is_Some (consensusStates s !! h') -> GT h' h = false.
Proof.
  unfold GetNextConsensusState. intros Hr.
  destruct (head _) as [hn|] eqn:Hhead.
  - apply (head_filter_least HeightLE) in Hhead as (Hgt & Hin & Hmin);
      [|apply ascendingHeights_sorted].
    apply elem_of_ascendingHeights in Hin as [v Hv].
    unfold getTmConsensusState. rewrite Hv.
    destruct v; [done|]. by destruct (Hr hn _ Hv).
  - intros _ h' Hh'. apply head_None in Hhead.
    apply elem_of_ascendingHeights in Hh'.
    apply (filter_empty_none _ _ Hhead) in Hh'. by destruct (GT h' h).
Qed.

End StoreFacts.

(** ** update.go *)

Module UpdateProofs.
Import clienttypes Tendermint HeightOrder StoreFacts.

Lemma IsExpired_spec cs t now :
  IsExpired cs t now = true <-> t + TrustingPeriod cs <= now.
Proof. unfold IsExpired, After, Add. rewrite negb_true_iff, Z.ltb_ge. done. Qed.

Lemma FrozenHeight_nonzero : IsZero FrozenHeight = false.
Proof. reflexivity. Qed.

Section WithCollaborators.
Context `{Collaborators}.

(** *** Pruning *)

Lemma pruneOldestConsensusState_empty cs ctx s :
  consensusStates s = ∅ -> pruneOldestConsensusState cs ctx s = Ok s.
Proof.
  intros Hempty. unfold pruneOldestConsensusState, IterateConsensusStateAscending.
  unfold ascendingHeights. rewrite Hempty, map_to_list_empty. reflexivity.
Qed.

Lemma pruneOldestConsensusState_earliest cs ctx s h0 :
  Earliest s h0 ->
  pruneOldestConsensusState cs ctx s =
    match GetConsensusState s h0 with
    | inl e => Panic e
    | inr c =>
        if IsExpired cs (Timestamp c) (BlockTime ctx)
        then Ok (deleteConsensusMetadata (deleteConsensusState s h0) h0)
        else Ok s
    end.
Proof.
  intros Hearliest. apply head_ascendingHeights, head_Some in Hearliest as [l Hl].
  unfold pruneOldestConsensusState, IterateConsensusStateAscending.
  rewrite Hl. simpl. unfold pruneCb.
  destruct (GetConsensusState s h0) as [e|c]; simpl; [done|].
  by destruct (IsExpired cs (Timestamp c) (BlockTime ctx)).
Qed.

Lemma Earliest_or_empty s : consensusStates s = ∅ \/ exists h0, Earliest s h0.
Proof.
  destruct (ascendingHeights s) as [|h0 l] eqn:Hl.
  - left. by apply ascendingHeights_nil.
  - right. exists h0. apply head_ascendingHeights. by rewrite Hl.
Qed.

(** On a readable store pruning never panics, and it only ever removes
    entries. *)
Lemma pruneOldestConsensusState_Readable cs ctx s :
  Readable s ->
  exists s', pruneOldestConsensusState cs ctx s = Ok s' /\
    consensusStates s' ⊆ consensusStates s.
Proof.
  intros Hr. destruct (Earliest_or_empty s) as [Hempty|[h0 Hearliest]].
  - exists s. by rewrite pruneOldestConsensusState_empty.
  - rewrite (pruneOldestConsensusState_earliest _ _ _ h0) by done.
    destruct Hearliest as [[v Hv] _].
    unfold GetConsensusState. rewrite Hv. destruct v as [c|].
    + destruct (IsExpired _ _ _); eexists; (split; [done|]); simpl; [|done].
      apply delete_subseteq.
    + by destruct (Hr h0 _ Hv).
Qed.

(** *** The update of a non-duplicate header *)

Lemma UpdateState_fresh cs ctx s header :
  (forall c, GetConsensusState s (GetHeight header) <> inr c) ->
  UpdateState cs ctx s (MsgHeader header) =
    match pruneOldestConsensusState cs ctx s with
    | Panic err => (Panic err, s)
    | Err err => (Err err, s)
    | Ok s' =>
        (Ok (if GT (GetHeight header) (LatestHeight cs)
             then set_LatestHeight cs (GetHeight header) else cs,
             Header_ConsensusState header),
         setConsensusMetadata ctx s' (GetHeight header))
    end.
Proof.
  intros Hfresh. unfold UpdateState.
  destruct (GetConsensusState s (GetHeight header)) as [e|c] eqn:Hget.
  - reflexivity.
  - by destruct (Hfresh c).
Qed.

(** Whatever [CheckHeaderAndUpdateState] returns on success, the consensus
    state is the one derived from the header. *)
Lemma CheckHeaderAndUpdateState_Ok_consensus cs ctx s header cs' c' s' :
  CheckHeaderAndUpdateState cs ctx s (MsgHeader header) = (Ok (cs', c'), s') ->
  c' = Header_ConsensusState header.
Proof.
  unfold CheckHeaderAndUpdateState.
  destruct (GetConsensusState s (GetHeight header)) as [e|prev] eqn:Hget.
  - destruct (GetConsensusState s (TrustedHeight header)) as [e'|trusted]; [done|].
    destruct (checkValidity _ _ _ _); [done|].
    destruct (match GetPreviousConsensusState s (GetHeight header) with
              | Some _ => _ | None => _ end); [by intros [= _ <- _]|].
    destruct (match GetNextConsensusState s (GetHeight header) with
              | Some _ => _ | None => _ end); [by intros [= _ <- _]|].
    rewrite UpdateState_fresh by (intros ?; congruence).
    destruct (pruneOldestConsensusState cs ctx s); try done.
    by intros [= _ <- _].
  - case_bool_decide as Heq.
    + intros [= _ <- _]. done.
    + destruct (GetConsensusState s (TrustedHeight header)) as [e'|trusted]; [done|].
      destruct (checkValidity _ _ _ _); [done|].
      by intros [= _ <- _].
Qed.

Lemma CheckHeaderAndUpdateState_duplicate cs ctx s header c :
  GetConsensusState s (GetHeight header) = inr c ->
  c = Header_ConsensusState header ->
  CheckHeaderAndUpdateState cs ctx s (MsgHeader header) = (Ok (cs, c), s).
Proof.
  intros Hget Heq. unfold CheckHeaderAndUpdateState.
  rewrite Hget, bool_decide_eq_true_2 by done. done.
Qed.

(** A header that is neither a duplicate nor in conflict and passes
    validity checking reaches the monotonicity checks. *)
Lemma CheckHeaderAndUpdateState_fresh_valid cs ctx s header trusted :
  (forall c, GetConsensusState s (GetHeight header) <> inr c) ->
  GetConsensusState s (TrustedHeight header) = inr trusted ->
  checkValidity cs trusted header (BlockTime ctx) = None ->
  CheckHeaderAndUpdateState cs ctx s (MsgHeader header) =
    let consState := Header_ConsensusState header in
    if match GetPreviousConsensusState s (GetHeight header) with
       | Some prevCons => negb (Before (Timestamp prevCons) (Timestamp consState))
       | None => false
       end
    then (Ok (set_FrozenHeight cs FrozenHeight, consState), s)
    else if match GetNextConsensusState s (GetHeight header) with
            | Some nextCons => negb (After (Timestamp nextCons) (Timestamp consState))
            | None => false
            end
    then (Ok (set_FrozenHeight cs FrozenHeight, consState), s)
    else UpdateState cs ctx s (MsgHeader header).
Proof.
  intros Hfresh Htrusted Hvalid. unfold CheckHeaderAndUpdateState.
  destruct (GetConsensusState s (GetHeight header)) as [e|c] eqn:Hget;
    [|by destruct (Hfresh c)].
  by rewrite Htrusted, Hvalid.
Qed.

(** A header that comes back accepted, with a client that is not frozen, went
    through [UpdateState]. *)
Lemma CheckHeaderAndUpdateState_accepted cs ctx s header cs' c' s' :
  CheckHeaderAndUpdateState cs ctx s (MsgHeader header) = (Ok (cs', c'), s') ->
  (forall c, GetConsensusState s (GetHeight header) <> inr c) ->
  IsZero (FrozenHeight_ cs') = true ->
  UpdateState cs ctx s (MsgHeader header) = (Ok (cs', c'), s').
Proof.
  intros Hcheck Hfresh Hactive. revert Hcheck. unfold CheckHeaderAndUpdateState.
  destruct (GetConsensusState s (GetHeight header)) as [e|c] eqn:Hget;
    [|by destruct (Hfresh c)].
  destruct (GetConsensusState s (TrustedHeight header)) as [e'|trusted]; [done|].
  destruct (checkValidity _ _ _ _); [done|].
  destruct (match GetPreviousConsensusState s (GetHeight header) with
            | Some _ => _ | None => _ end).
  { intros [= <- _ _]. discriminate Hactive. }
  destruct (match GetNextConsensusState s (GetHeight header) with
            | Some _ => _ | None => _ end).
  { intros [= <- _ _]. discriminate Hactive. }
  done.
Qed.

(** *** Conflicting headers *)

(** C1: when a consensus state is stored at the header's height, differs
    from the one derived from the header, and the header passes validity
    checking against the trusted consensus state, then
    [CheckHeaderAndUpdateState] returns the client state with the frozen
    height set to the non-zero sentinel, and the store is returned as it
    was: the state stored at that height is still the previous one. *)
Theorem C1_conflicting_header_freezes cs ctx s header prevConsState trusted :
  GetConsensusState s (GetHeight header) = inr prevConsState ->
  prevConsState <> Header_ConsensusState header ->
  GetConsensusState s (TrustedHeight header) = inr trusted ->
  checkValidity cs trusted header (BlockTime ctx) = None ->
  exists cs' s',
    CheckHeaderAndUpdateState cs ctx s (MsgHeader header)
      = (Ok (cs', Header_ConsensusState header), s') /\
    FrozenHeight_ cs' = FrozenHeight /\
    IsZero (FrozenHeight_ cs') = false /\
    s' = s /\
    GetConsensusState s' (GetHeight header) = inr prevConsState.
Proof.
  intros Hprev Hdiff Htrusted Hvalid.
  exists (set_FrozenHeight cs FrozenHeight), s.
  unfold CheckHeaderAndUpdateState.
  rewrite Hprev, bool_decide_eq_false_2 by done.
  rewrite Htrusted, Hvalid. done.
Qed.

(** *** Duplicate headers *)

(** C3: when the consensus state stored at the header's height equals the
    one derived from the header, [CheckHeaderAndUpdateState] returns the
    client state it was called on together with the stored consensus state
    and leaves the store as it was; and once an update has succeeded and
    the returned consensus state has been recorded at the header's height,
    submitting the same header again returns the same pair and leaves the
    store as it was. *)
Theorem C3_duplicate_header_is_noop cs ctx s header :
  (forall c,
     GetConsensusState s (GetHeight header) = inr c ->
     c = Header_ConsensusState header ->
     CheckHeaderAndUpdateState cs ctx s (MsgHeader header) = (Ok (cs, c), s)) /\
  (forall cs1 c1 s1 ctx',
     CheckHeaderAndUpdateState cs ctx s (MsgHeader header) = (Ok (cs1, c1), s1) ->
     let recorded := SetConsensusState s1 (GetHeight header) c1 in
     CheckHeaderAndUpdateState cs1 ctx' recorded (MsgHeader header)
       = (Ok (cs1, c1), recorded)).
Proof.
  split; [by apply CheckHeaderAndUpdateState_duplicate|].
  intros cs1 c1 s1 ctx' Hfirst recorded.
  apply CheckHeaderAndUpdateState_duplicate.
  - apply GetConsensusState_inr. unfold recorded, SetConsensusState; simpl.
    apply lookup_insert_eq.
  - by eapply CheckHeaderAndUpdateState_Ok_consensus.
Qed.

(** *** Invalid headers *)

(** C4, as amended: for every header that is not an exact duplicate of the
    consensus state stored at its height and that fails validity checking
    against the trusted consensus state, [CheckHeaderAndUpdateState]
    returns that error, returns no client state, and leaves the store as
    it was. *)
Theorem C4_invalid_header_rejected cs ctx s header trusted e :
  GetConsensusState s (GetHeight header) <> inr (Header_ConsensusState header) ->
  GetConsensusState s (TrustedHeight header) = inr trusted ->
  checkValidity cs trusted header (BlockTime ctx) = Some e ->
  CheckHeaderAndUpdateState cs ctx s (MsgHeader header) = (Err e, s).
Proof.
  intros Hnodup Htrusted Hinvalid. unfold CheckHeaderAndUpdateState.
  destruct (GetConsensusState s (GetHeight header)) as [e'|prev] eqn:Hget.
  - by rewrite Htrusted, Hinvalid.
  - rewrite bool_decide_eq_false_2 by congruence.
    by rewrite Htrusted, Hinvalid.
Qed.

(** C9, as amended: a header whose height is less than or equal to its
    trusted height, or whose revision number differs from that of its trusted
    height, fails [checkValidity] with an error whatever the client state,
    the trusted consensus state and the time. Unless the header is an exact
    duplicate of the consensus state stored at its height,
    [CheckHeaderAndUpdateState] rejects it: it returns an error and the store
    as it was. For an exact duplicate it returns the client state it was
    called on with the stored consensus state, and the store as it was. *)
Theorem C9_height_not_above_trusted_rejected cs consState header now :
  LTE (GetHeight header) (TrustedHeight header) = true \/
  RevisionNumber (GetHeight header) <> RevisionNumber (TrustedHeight header) ->
  (exists e, checkValidity cs consState header now = Some e) /\
  (forall ctx s,
     GetConsensusState s (GetHeight header) <> inr (Header_ConsensusState header) ->
     exists e, CheckHeaderAndUpdateState cs ctx s (MsgHeader header) = (Err e, s)) /\
  (forall ctx s,
     GetConsensusState s (GetHeight header) = inr (Header_ConsensusState header) ->
     CheckHeaderAndUpdateState cs ctx s (MsgHeader header)
       = (Ok (cs, Header_ConsensusState header), s)).
Proof.
  intros Hbad.
  assert (forall cs0 c0 t, exists e, checkValidity cs0 c0 header t = Some e) as Hfails.
  { intros cs0 c0 t. unfold checkValidity.
    destruct (checkTrustedHeader header c0); [eauto|].
    destruct (N.eqb_spec (RevisionNumber (GetHeight header))
                (RevisionNumber (TrustedHeight header))) as [Hrev|Hrev];
      simpl; [|eauto].
    destruct (ValidatorSetFromProto (TrustedValidators header)); [eauto|].
    destruct (SignedHeaderFromProto (SignedHeader header)); [eauto|].
    destruct (ValidatorSetFromProto (ValidatorSet header)); [eauto|].
    destruct Hbad as [Hlte|Hne]; [|done]. rewrite Hlte. eauto. }
  split_and!; [apply Hfails| |].
  - intros ctx s Hnodup. unfold CheckHeaderAndUpdateState.
    destruct (GetConsensusState s (GetHeight header)) as [e'|prev] eqn:Hget.
    + destruct (GetConsensusState s (TrustedHeight header)) as [e''|trusted];
        [eauto|].
      destruct (Hfails cs trusted (BlockTime ctx)) as [e Hfail].
      rewrite Hfail. eauto.
    + rewrite bool_decide_eq_false_2 by congruence.
      destruct (GetConsensusState s (TrustedHeight header)) as [e''|trusted];
        [eauto|].
      destruct (Hfails cs trusted (BlockTime ctx)) as [e Hfail].
      rewrite Hfail. eauto.
  - intros ctx s Hdup. by apply CheckHeaderAndUpdateState_duplicate.
Qed.

(** *** Pruning inside an update *)

(** C5, as amended: when the read of the earliest stored consensus state
    fails during pruning, [pruneOldestConsensusState] panics with that
    store error, and so does the update of a non-duplicate header: no error
    value is returned, and nothing has been written. *)
Theorem C5_prune_read_failure_panics cs ctx s header h0 e :
  Earliest s h0 ->
  GetConsensusState s h0 = inl e ->
  (forall c, GetConsensusState s (GetHeight header) <> inr c) ->
  pruneOldestConsensusState cs ctx s = Panic e /\
  UpdateState cs ctx s (MsgHeader header) = (Panic e, s).
Proof.
  intros Hearliest Hread Hfresh.
  assert (pruneOldestConsensusState cs ctx s = Panic e) as Hprune.
  { rewrite (pruneOldestConsensusState_earliest _ _ _ h0) by done.
    by rewrite Hread. }
  split; [done|]. rewrite UpdateState_fresh by done. by rewrite Hprune.
Qed.

(** What a successful update of a non-duplicate header did to the store:
    nothing was stored before it, or the earliest state was read, and was
    deleted with its metadata exactly when expired. *)
Lemma UpdateState_fresh_Ok cs ctx s header cs' c' s' :
  UpdateState cs ctx s (MsgHeader header) = (Ok (cs', c'), s') ->
  (forall c, GetConsensusState s (GetHeight header) <> inr c) ->
  cs' = (if GT (GetHeight header) (LatestHeight cs)
         then set_LatestHeight cs (GetHeight header) else cs) /\
  c' = Header_ConsensusState header /\
  ((consensusStates s = ∅ /\ s' = setConsensusMetadata ctx s (GetHeight header)) \/
   (exists h0 c0, Earliest s h0 /\
      consensusStates s !! h0 = Some (Stored c0) /\ h0 <> GetHeight header /\
      s' = setConsensusMetadata ctx
             (if IsExpired cs (Timestamp c0) (BlockTime ctx)
              then deleteConsensusMetadata (deleteConsensusState s h0) h0
              else s)
             (GetHeight header))).
Proof.
  intros Hupd Hfresh. rewrite UpdateState_fresh in Hupd by done.
  destruct (Earliest_or_empty s) as [Hempty|[h0 Hearliest]].
  - rewrite pruneOldestConsensusState_empty in Hupd by done.
    injection Hupd as <- <- <-. split_and!; [done..|]. by left.
  - rewrite (pruneOldestConsensusState_earliest _ _ _ h0) in Hupd by done.
    destruct (GetConsensusState s h0) as [e|c0] eqn:Hread; [done|].
    assert (h0 <> GetHeight header) as Hne.
    { intros ->. by destruct (Hfresh c0). }
    apply GetConsensusState_inr in Hread.
    destruct (IsExpired cs (Timestamp c0) (BlockTime ctx)) eqn:Hexp;
      injection Hupd as <- <- <-;
      (split_and!; [done..|]); right; exists h0, c0; by rewrite ?Hexp.
Qed.

(** C6: after a successful update of a non-duplicate header, the earliest
    stored consensus state is gone from the store exactly when its
    timestamp plus the trusting period is not after the block time, and
    then its metadata is gone too; any height whose entry changed is the
    earliest one, so at most one state is pruned; and a state that is not
    expired is still stored. *)
Theorem C6_prune_earliest_iff_expired cs ctx s header cs' c' s' :
  UpdateState cs ctx s (MsgHeader header) = (Ok (cs', c'), s') ->
  (forall c, GetConsensusState s (GetHeight header) <> inr c) ->
  (forall h0, Earliest s h0 ->
     exists c0, consensusStates s !! h0 = Some (Stored c0) /\
       (consensusStates s' !! h0 = None
        <-> Timestamp c0 + TrustingPeriod cs <= BlockTime ctx) /\
       (consensusStates s' !! h0 = None -> consensusMetadata s' !! h0 = None)) /\
  (forall h, consensusStates s' !! h <> consensusStates s !! h ->
     Earliest s h /\ consensusStates s' !! h = None) /\
  (forall h c, consensusStates s !! h = Some (Stored c) ->
     ~ Timestamp c + TrustingPeriod cs <= BlockTime ctx ->
     consensusStates s' !! h = Some (Stored c)).
Proof.
  intros Hupd Hfresh.
  destruct (UpdateState_fresh_Ok _ _ _ _ _ _ _ Hupd Hfresh)
    as (_ & _ & [[Hempty ->]|(h0 & c0 & Hearliest & Hh0 & Hne & ->)]).
  - split_and!.
    + intros h0 [[v Hv] _]. rewrite Hempty in Hv. by rewrite lookup_empty in Hv.
    + intros h Hchanged. by destruct Hchanged.
    + intros h c Hh _. done.
  - destruct (IsExpired cs (Timestamp c0) (BlockTime ctx)) eqn:Hexp; simpl.
    + apply IsExpired_spec in Hexp. split_and!.
      * intros h0' Hearliest'.
        rewrite <- (Earliest_unique s h0 h0') by done.
        exists c0. split_and!; [done| |].
        -- by rewrite lookup_delete_eq.
        -- intros _. rewrite lookup_insert_ne by done. apply lookup_delete_eq.
      * intros h Hchanged. destruct (decide (h = h0)) as [->|Hneq].
        -- split; [done|]. apply lookup_delete_eq.
        -- by rewrite lookup_delete_ne in Hchanged.
      * intros h c Hh Hunexpired. destruct (decide (h = h0)) as [->|Hneq].
        -- rewrite Hh0 in Hh. injection Hh as ->. by destruct Hunexpired.
        -- by rewrite lookup_delete_ne.
    + assert (~ Timestamp c0 + TrustingPeriod cs <= BlockTime ctx) as Hunexpired.
      { intros Hle. apply IsExpired_spec in Hle. congruence. }
      split_and!.
      * intros h0' Hearliest'.
        rewrite <- (Earliest_unique s h0 h0') by done.
        exists c0. rewrite Hh0. split_and!; [done| |done].
        split; [done|]. intros Hle. by destruct Hunexpired.
      * intros h Hchanged. by destruct Hchanged.
      * intros h c Hh _. done.
Qed.

(** C7: after a successful update of a non-duplicate header, the latest
    height of the returned client state differs from the one before exactly
    when the header's height is strictly greater, in which case it is the
    header's height; every other field is as before. *)
Theorem C7_only_latest_height_advances cs ctx s header cs' c' s' :
  UpdateState cs ctx s (MsgHeader header) = (Ok (cs', c'), s') ->
  (forall c, GetConsensusState s (GetHeight header) <> inr c) ->
  (LatestHeight cs' <> LatestHeight cs
   <-> GT (GetHeight header) (LatestHeight cs) = true) /\
  (GT (GetHeight header) (LatestHeight cs) = true ->
   LatestHeight cs' = GetHeight header) /\
  ChainId cs' = ChainId cs /\
  TrustLevel cs' = TrustLevel cs /\
  TrustingPeriod cs' = TrustingPeriod cs /\
  MaxClockDrift cs' = MaxClockDrift cs /\
  UnbondingPeriod cs' = UnbondingPeriod cs /\
  FrozenHeight_ cs' = FrozenHeight_ cs.
Proof.
  intros Hupd Hfresh.
  destruct (UpdateState_fresh_Ok _ _ _ _ _ _ _ Hupd Hfresh) as (-> & _ & _).
  destruct (GT (GetHeight header) (LatestHeight cs)) eqn:Hgt; simpl.
  - repeat split; try done. intros _. by apply GT_neq.
  - repeat split; done.
Qed.

(** *** Monotonic timestamps *)

(** On a readable, monotonic store the check against the previous neighbour
    catches every state at a smaller height that is not strictly before. *)
Lemma previous_check_catches s h c h1 c1 :
  Readable s -> Monotonic s ->
  LT h1 h = true -> consensusStates s !! h1 = Some (Stored c1) ->
  ~ Timestamp c1 < Timestamp c ->
  match GetPreviousConsensusState s h with
  | Some prevCons => negb (Before (Timestamp prevCons) (Timestamp c))
  | None => false
  end = true.
Proof.
  intros Hr Hm Hlt Hh1 Hnot.
  destruct (GetPreviousConsensusState s h) as [p|] eqn:Hprev.
  - apply GetPreviousConsensusState_Some in Hprev as (hp & Hhp & Hp & Hmax).
    assert (Timestamp c1 <= Timestamp p) as Hle.
    { destruct (LTE_cases h1 hp) as [->|Hlt1]; [by apply Hmax; eauto| |].
      - rewrite Hh1 in Hp. injection Hp as ->. lia.
      - specialize (Hm h1 hp c1 p Hh1 Hp Hlt1). lia. }
    unfold Before. apply negb_true_iff, Z.ltb_ge. lia.
  - pose proof (GetPreviousConsensusState_None s h Hr Hprev h1) as Hnone.
    rewrite Hnone in Hlt by eauto. discriminate.
Qed.

(** Likewise for the next neighbour and the states at larger heights. *)
Lemma next_check_catches s h c h2 c2 :
  Readable s -> Monotonic s ->
  GT h2 h = true -> consensusStates s !! h2 = Some (Stored c2) ->
  ~ Timestamp c < Timestamp c2 ->
  match GetNextConsensusState s h with
  | Some nextCons => negb (After (Timestamp nextCons) (Timestamp c))
  | None => false
  end = true.
Proof.
  intros Hr Hm Hgt Hh2 Hnot.
  destruct (GetNextConsensusState s h) as [n|] eqn:Hnext.
  - apply GetNextConsensusState_Some in Hnext as (hn & Hhn & Hn & Hmin).
    assert (Timestamp n <= Timestamp c2) as Hle.
    { destruct (LTE_cases hn h2) as [->|Hlt1]; [by apply Hmin; eauto| |].
      - rewrite Hh2 in Hn. injection Hn as ->. lia.
      - specialize (Hm hn h2 n c2 Hn Hh2 Hlt1). lia. }
    unfold After. apply negb_true_iff, Z.ltb_ge. lia.
  - pose proof (GetNextConsensusState_None s h Hr Hnext h2) as Hnone.
    rewrite Hnone in Hgt by eauto. discriminate.
Qed.

(** Recording a state that is strictly between its neighbours on a subset
    of a monotonic store keeps the store monotonic. *)
Lemma Monotonic_record s s1 h c :
  Monotonic s -> consensusStates s1 ⊆ consensusStates s ->
  ~ BreaksMonotonicity s h c ->
  Monotonic (SetConsensusState s1 h c).
Proof.
  intros Hm Hsub Hfits h1 h2 c1 c2. unfold SetConsensusState; simpl.
  intros Hh1 Hh2 Hlt.
  destruct (decide (Timestamp c1 < Timestamp c2)) as [|Hnot]; [done|].
  exfalso.
  apply lookup_insert_Some in Hh1 as [[<- [= <-]]|[Hne1 Hh1]];
    apply lookup_insert_Some in Hh2 as [[<- [= <-]]|[Hne2 Hh2]].
  - by rewrite LT_irrefl in Hlt.
  - apply Hfits. right. exists h2, c2. rewrite GT_LT.
    split_and!; [done| |done]. by eapply lookup_weaken.
  - apply Hfits. left. exists h1, c1.
    split_and!; [done| |done]. by eapply lookup_weaken.
  - apply Hnot. eapply (Hm h1 h2); [by eapply lookup_weaken..|done].
Qed.

Lemma Readable_record s s1 h c :
  Readable s -> consensusStates s1 ⊆ consensusStates s ->
  Readable (SetConsensusState s1 h c).
Proof.
  intros Hr Hsub h' v. unfold SetConsensusState; simpl.
  intros [[<- <-]|[Hne Hv]]%lookup_insert_Some; [done|].
  eapply Hr. by eapply lookup_weaken.
Qed.

(** C2: on a readable store that satisfies the monotonicity invariant, for
    a header that passes validity checking and has no consensus state
    stored at its height: if a state at a smaller height is not strictly
    before the new consensus state, or a state at a larger height is not
    strictly after it, the client comes back with the non-zero frozen
    height and the store is as it was; otherwise the update succeeds
    without freezing, and the store with the new consensus state recorded
    at the header's height is again readable and monotonic. *)
Theorem C2_monotonicity_enforced cs ctx s header trusted :
  Readable s -> Monotonic s ->
  (forall c, GetConsensusState s (GetHeight header) <> inr c) ->
  GetConsensusState s (TrustedHeight header) = inr trusted ->
  checkValidity cs trusted header (BlockTime ctx) = None ->
  let consState := Header_ConsensusState header in
  (BreaksMonotonicity s (GetHeight header) consState ->
   exists cs',
     CheckHeaderAndUpdateState cs ctx s (MsgHeader header)
       = (Ok (cs', consState), s) /\
     FrozenHeight_ cs' = FrozenHeight /\ IsZero (FrozenHeight_ cs') = false) /\
  (~ BreaksMonotonicity s (GetHeight header) consState ->
   exists cs' s',
     CheckHeaderAndUpdateState cs ctx s (MsgHeader header)
       = (Ok (cs', consState), s') /\
     FrozenHeight_ cs' = FrozenHeight_ cs /\
     Readable (SetConsensusState s' (GetHeight header) consState) /\
     Monotonic (SetConsensusState s' (GetHeight header) consState)).
Proof.
  intros Hr Hm Hfresh Htrusted Hvalid consState.
  rewrite (CheckHeaderAndUpdateState_fresh_valid _ _ _ _ trusted) by done.
  fold consState. cbv zeta. split.
  - intros Hbreaks. exists (set_FrozenHeight cs FrozenHeight).
    split; [|done].
    destruct Hbreaks as [(h1 & c1 & Hlt & Hh1 & Hnot)|(h2 & c2 & Hgt & Hh2 & Hnot)].
    + by rewrite (previous_check_catches s _ consState h1 c1).
    + rewrite (next_check_catches s _ consState h2 c2) by done.
      by destruct (match GetPreviousConsensusState s (GetHeight header) with
                   | Some _ => _ | None => _ end).
  - intros Hfits.
    assert (match GetPreviousConsensusState s (GetHeight header) with
            | Some prevCons =>
                negb (Before (Timestamp prevCons) (Timestamp consState))
            | None => false
            end = false) as ->.
    { destruct (GetPreviousConsensusState s (GetHeight header)) as [p|] eqn:Hprev;
        [|done].
      apply GetPreviousConsensusState_Some in Hprev as (hp & Hhp & Hp & _).
      unfold Before. apply negb_false_iff, Z.ltb_lt.
      destruct (decide (Timestamp p < Timestamp consState)) as [|Hnot]; [done|].
      destruct Hfits. left. by exists hp, p. }
    assert (match GetNextConsensusState s (GetHeight header) with
            | Some nextCons =>
                negb (After (Timestamp nextCons) (Timestamp consState))
            | None => false
            end = false) as ->.
    { destruct (GetNextConsensusState s (GetHeight header)) as [n|] eqn:Hnext;
        [|done].
      apply GetNextConsensusState_Some in Hnext as (hn & Hhn & Hn & _).
      unfold After. apply negb_false_iff, Z.ltb_lt.
      destruct (decide (Timestamp consState < Timestamp n)) as [|Hnot]; [done|].
      destruct Hfits. right. by exists hn, n. }
    rewrite UpdateState_fresh by done.
    destruct (pruneOldestConsensusState_Readable cs ctx s Hr) as (s1 & -> & Hsub).
    eexists _, _. split; [done|]. split_and!.
    + by destruct (GT (GetHeight header) (LatestHeight cs)).
    + by apply (Readable_record s).
    + by apply (Monotonic_record s).
Qed.

(** The invariant at work: every store a client goes through is readable and
    monotonic. *)
Lemma Reachable_invariant s : Reachable s -> Readable s /\ Monotonic s.
Proof.
induction 1 as [height c metadata|s cs ctx header cs' c' s' Hreach [Hr Hm] Hcheck Hactive].
- split.
  + intros h v; simpl. intros [-> <-]%lookup_singleton_Some. done.
  + intros h1 h2 c1 c2; simpl.
    intros [<- _]%lookup_singleton_Some [<- _]%lookup_singleton_Some.
    by rewrite LT_irrefl.
- pose proof (CheckHeaderAndUpdateState_Ok_consensus _ _ _ _ _ _ _ Hcheck) as ->.
  destruct (GetConsensusState s (GetHeight header)) as [e|prev] eqn:Hget.
  + assert (forall c, GetConsensusState s (GetHeight header) <> inr c) as Hfresh
      by (intros c; congruence).
    pose proof (CheckHeaderAndUpdateState_accepted _ _ _ _ _ _ _ Hcheck Hfresh Hactive)
      as Hupd.
    assert (~ BreaksMonotonicity s (GetHeight header) (Header_ConsensusState header))
      as Hfits.
    { revert Hcheck. unfold CheckHeaderAndUpdateState. rewrite Hget.
      destruct (GetConsensusState s (TrustedHeight header)) as [e'|trusted]; [done|].
      destruct (checkValidity _ _ _ _); [done|].
      intros Hcheck [(h1 & c1 & Hlt & Hh1 & Hnot)|(h2 & c2 & Hgt & Hh2 & Hnot)].
      - rewrite (previous_check_catches s _ _ h1 c1) in Hcheck by done.
        injection Hcheck as <- _. discriminate Hactive.
      - rewrite (next_check_catches s _ _ h2 c2) in Hcheck by done.
        destruct (match GetPreviousConsensusState s (GetHeight header) with
                  | Some _ => _ | None => _ end);
          injection Hcheck as <- _; discriminate Hactive. }
    rewrite UpdateState_fresh in Hupd by done.
    destruct (pruneOldestConsensusState_Readable cs ctx s Hr) as (s1 & Hprune & Hsub).
    rewrite Hprune in Hupd.
    assert (s' = setConsensusMetadata ctx s1 (GetHeight header)) as -> by congruence.
    split; [by apply (Readable_record s)|by apply (Monotonic_record s)].
  + destruct (decide (prev = Header_ConsensusState header)) as [Hdup|Hdup].
    * rewrite (CheckHeaderAndUpdateState_duplicate _ _ _ _ prev) in Hcheck by done.
      assert (s' = s) as -> by congruence.
      apply GetConsensusState_inr in Hget.
      assert (SetConsensusState s (GetHeight header) (Header_ConsensusState header) = s)
        as ->; [|done].
      destruct s as [states metadata]. unfold SetConsensusState; simpl in *.
      f_equal. apply insert_id. by rewrite Hget, Hdup.
    * revert Hcheck. unfold CheckHeaderAndUpdateState. rewrite Hget.
      rewrite bool_decide_eq_false_2 by done.
      destruct (GetConsensusState s (TrustedHeight header)) as [e'|trusted]; [done|].
      destruct (checkValidity _ _ _ _); [done|].
      intros [= <- _]. discriminate Hactive.
Qed.
End WithCollaborators.

(** *** The claims at concrete stores and headers *)

Import Examples.

(** C1 at a second header for height 10 with another commitment root. *)
Lemma C1_witness :
  exists cs' s',
    CheckHeaderAndUpdateState client (at_ 60) storeWithHeight10
      (MsgHeader (mkHeader 10 50 [xbb] 5))
      = (Ok (cs', Header_ConsensusState (mkHeader 10 50 [xbb] 5)), s') /\
    FrozenHeight_ cs' = FrozenHeight /\
    IsZero (FrozenHeight_ cs') = false /\
    s' = storeWithHeight10 /\
    GetConsensusState s' (GetHeight (mkHeader 10 50 [xbb] 5))
      = inr (mkConsensusState 50 [xaa]).
Proof.
  apply (C1_conflicting_header_freezes client (at_ 60) storeWithHeight10
           (mkHeader 10 50 [xbb] 5) (mkConsensusState 50 [xaa])
           (mkConsensusState 0 [x05])).
  - vm_compute. reflexivity.
  - vm_compute. discriminate.
  - vm_compute. reflexivity.
  - vm_compute. reflexivity.
Defined.

(** C2 at a header for height 10 with time 50 when height 12 is stored with
    time 40. *)
Lemma C2_witness :
  let header := mkHeader 10 50 [xaa] 5 in
  BreaksMonotonicity storeWithHeight12 (GetHeight header) (Header_ConsensusState header) /\
  exists cs',
    CheckHeaderAndUpdateState client (at_ 60) storeWithHeight12 (MsgHeader header)
      = (Ok (cs', Header_ConsensusState header), storeWithHeight12) /\
    FrozenHeight_ cs' = FrozenHeight /\ IsZero (FrozenHeight_ cs') = false.
Proof.
  intros header.
  assert (BreaksMonotonicity storeWithHeight12 (GetHeight header)
            (Header_ConsensusState header)) as Hbreaks.
  { right. exists (NewHeight 0 12), (mkConsensusState 40 [x0c]).
    split_and!; [reflexivity|vm_compute; reflexivity|vm_compute; discriminate]. }
  split; [exact Hbreaks|].
  refine (proj1 (C2_monotonicity_enforced client (at_ 60) storeWithHeight12 header
                   (mkConsensusState 0 [x05]) _ _ _ _ _) Hbreaks).
  - apply (bool_decide_unpack _). vm_compute. exact I.
  - apply (bool_decide_unpack _). vm_compute. exact I.
  - intros c. vm_compute. discriminate.
  - vm_compute. reflexivity.
  - vm_compute. reflexivity.
Defined.

(** C3 at the header whose consensus state is already stored for height 10. *)
Lemma C3_witness :
  CheckHeaderAndUpdateState client (at_ 60) storeWithHeight10
    (MsgHeader (mkHeader 10 50 [xaa] 5))
  = (Ok (client, mkConsensusState 50 [xaa]), storeWithHeight10).
Proof.
  apply (proj1 (C3_duplicate_header_is_noop client (at_ 60) storeWithHeight10
                  (mkHeader 10 50 [xaa] 5))).
  - vm_compute. reflexivity.
  - vm_compute. reflexivity.
Defined.

(** C4 as stated fails: the header stored for height 10 is submitted again
    at time 150, when the trusting period of 100 has elapsed since the
    trusted state of time 0; validity checking of this header fails, yet
    [CheckHeaderAndUpdateState] returns the stored pair and no error. *)
Lemma C4_counterexample :
  let header := mkHeader 10 50 [xaa] 5 in
  let trusted := mkConsensusState 0 [x05] in
  GetConsensusState storeWithHeight10 (TrustedHeight header) = inr trusted /\
  checkValidity client trusted header (BlockTime (at_ 150))
    = Some (Wrapped (ErrLibrary "old header has expired") "failed to verify header") /\
  CheckHeaderAndUpdateState client (at_ 150) storeWithHeight10 (MsgHeader header)
    = (Ok (client, mkConsensusState 50 [xaa]), storeWithHeight10) /\
  ~ exists e,
      (CheckHeaderAndUpdateState client (at_ 150) storeWithHeight10
         (MsgHeader header)).1 = Err e.
Proof.
  intros header trusted. split_and!.
  - vm_compute. reflexivity.
  - vm_compute. reflexivity.
  - vm_compute. reflexivity.
  - intros [e He]. vm_compute in He. discriminate.
Qed.

(** C4 as amended, at the scenario of the trusting period: trusted state of
    time 0, trusting period 100, a header with time 140 delivered at time
    150. *)
Lemma C4_witness :
  CheckHeaderAndUpdateState client (at_ 150) storeTrustedOnly
    (MsgHeader (mkHeader 2 140 [xaa] 1))
  = (Err (Wrapped (ErrLibrary "old header has expired") "failed to verify header"),
     storeTrustedOnly).
Proof.
  apply (C4_invalid_header_rejected client (at_ 150) storeTrustedOnly
           (mkHeader 2 140 [xaa] 1) (mkConsensusState 0 [x01])).
  - vm_compute. discriminate.
  - vm_compute. reflexivity.
  - vm_compute. reflexivity.
Defined.

(** C5 as stated fails: with an undecodable earliest entry, the update of a
    valid header for a new height panics with the store error; no error is
    returned. *)
Lemma C5_counterexample :
  let header := mkHeader 3 50 [xaa] 2 in
  Earliest storeCorrupted (NewHeight 0 1) /\
  GetConsensusState storeCorrupted (NewHeight 0 1)
    = inl (Wrapped ErrInvalidConsensus "unmarshal error") /\
  CheckHeaderAndUpdateState client (at_ 60) storeCorrupted (MsgHeader header)
    = (Panic (Wrapped ErrInvalidConsensus "unmarshal error"), storeCorrupted) /\
  ~ exists e,
      (CheckHeaderAndUpdateState client (at_ 60) storeCorrupted
         (MsgHeader header)).1 = Err e.
Proof.
  intros header. split_and!.
  - apply head_ascendingHeights. vm_compute. reflexivity.
  - vm_compute. reflexivity.
  - vm_compute. reflexivity.
  - intros [e He]. vm_compute in He. discriminate.
Qed.

(** C5 as amended, at the same store. *)
Lemma C5_witness :
  pruneOldestConsensusState client (at_ 60) storeCorrupted
    = Panic (Wrapped ErrInvalidConsensus "unmarshal error") /\
  UpdateState client (at_ 60) storeCorrupted (MsgHeader (mkHeader 3 50 [xaa] 2))
    = (Panic (Wrapped ErrInvalidConsensus "unmarshal error"), storeCorrupted).
Proof.
  apply (C5_prune_read_failure_panics client (at_ 60) storeCorrupted
           (mkHeader 3 50 [xaa] 2) (NewHeight 0 1)).
  - apply head_ascendingHeights. vm_compute. reflexivity.
  - vm_compute. reflexivity.
  - intros c. vm_compute. discriminate.
Defined.

(** The store after the header for height 7 is accepted at time 150. *)
Lemma UpdateState_example :
  UpdateState client (at_ 150) storeTwoStates (MsgHeader (mkHeader 7 140 [xaa] 2))
  = (Ok (set_LatestHeight client (NewHeight 0 7), mkConsensusState 140 [xaa]),
     {| consensusStates :=
          {[ NewHeight 0 2 := Stored (mkConsensusState 90 [x02]) ]};
        consensusMetadata :=
          {[ NewHeight 0 7 := {| ProcessedTime := 150;
                                 ProcessedHeight := NewHeight 0 1000 |} ]} |}).
Proof. vm_compute. reflexivity. Qed.

(** C6 at a store whose earliest state, of time 0, is expired at time 150 and
    whose other state, of time 90, is not: the first is pruned, the second
    is kept. *)
Lemma C6_witness :
  let s' := (UpdateState client (at_ 150) storeTwoStates
               (MsgHeader (mkHeader 7 140 [xaa] 2))).2 in
  (forall h0, Earliest storeTwoStates h0 ->
     exists c0, consensusStates storeTwoStates !! h0 = Some (Stored c0) /\
       (consensusStates s' !! h0 = None
        <-> Timestamp c0 + TrustingPeriod client <= BlockTime (at_ 150)) /\
       (consensusStates s' !! h0 = None -> consensusMetadata s' !! h0 = None)) /\
  (forall h, consensusStates s' !! h <> consensusStates storeTwoStates !! h ->
     Earliest storeTwoStates h /\ consensusStates s' !! h = None) /\
  (forall h c, consensusStates storeTwoStates !! h = Some (Stored c) ->
     ~ Timestamp c + TrustingPeriod client <= BlockTime (at_ 150) ->
     consensusStates s' !! h = Some (Stored c)).
Proof.
  intros s'.
  apply (C6_prune_earliest_iff_expired client (at_ 150) storeTwoStates
           (mkHeader 7 140 [xaa] 2) (set_LatestHeight client (NewHeight 0 7))
           (mkConsensusState 140 [xaa]) s').
  - vm_compute. reflexivity.
  - intros c. vm_compute. discriminate.
Defined.

(** C7 at the same update, which moves the latest height from 5 to 7. *)
Lemma C7_witness :
  let cs' := set_LatestHeight client (NewHeight 0 7) in
  (LatestHeight cs' <> LatestHeight client
   <-> GT (GetHeight (mkHeader 7 140 [xaa] 2)) (LatestHeight client) = true) /\
  (GT (GetHeight (mkHeader 7 140 [xaa] 2)) (LatestHeight client) = true ->
   LatestHeight cs' = GetHeight (mkHeader 7 140 [xaa] 2)) /\
  ChainId cs' = ChainId client /\
  TrustLevel cs' = TrustLevel client /\
  TrustingPeriod cs' = TrustingPeriod client /\
  MaxClockDrift cs' = MaxClockDrift client /\
  UnbondingPeriod cs' = UnbondingPeriod client /\
  FrozenHeight_ cs' = FrozenHeight_ client.
Proof.
  intros cs'.
  apply (C7_only_latest_height_advances client (at_ 150) storeTwoStates
           (mkHeader 7 140 [xaa] 2) cs' (mkConsensusState 140 [xaa])
           (UpdateState client (at_ 150) storeTwoStates
              (MsgHeader (mkHeader 7 140 [xaa] 2))).2).
  - vm_compute. reflexivity.
  - intros c. vm_compute. discriminate.
Defined.

(** C9 as stated fails: a header for height 5 that names height 5 as its
    trusted height, and whose consensus state is the one stored at height 5,
    fails validity checking, yet [CheckHeaderAndUpdateState] returns the
    stored pair and no error. *)
Lemma C9_counterexample :
  let header := mkHeader 5 0 [x05] 5 in
  LTE (GetHeight header) (TrustedHeight header) = true /\
  checkValidity client (mkConsensusState 0 [x05]) header (BlockTime (at_ 60))
    = Some (Wrapped ErrInvalidHeader "header height <= consensus state height") /\
  CheckHeaderAndUpdateState client (at_ 60) storeWithHeight10 (MsgHeader header)
    = (Ok (client, mkConsensusState 0 [x05]), storeWithHeight10) /\
  ~ exists e,
      (CheckHeaderAndUpdateState client (at_ 60) storeWithHeight10
         (MsgHeader header)).1 = Err e.
Proof.
  intros header. split_and!.
  - vm_compute. reflexivity.
  - vm_compute. reflexivity.
  - vm_compute. reflexivity.
  - intros [e He]. vm_compute in He. discriminate.
Qed.

(** C9 as amended, at a header for height 5 that names height 5 as its
    trusted height and differs from the state stored at height 5: it fails
    validity checking and is rejected with the store as it was. *)
Lemma C9_witness :
  (exists e,
     checkValidity client (mkConsensusState 0 [x05]) (mkHeader 5 50 [xaa] 5) 60
       = Some e) /\
  (exists e,
     CheckHeaderAndUpdateState client (at_ 60) storeWithHeight10
       (MsgHeader (mkHeader 5 50 [xaa] 5)) = (Err e, storeWithHeight10)).
Proof.
  assert (LTE (GetHeight (mkHeader 5 50 [xaa] 5))
              (TrustedHeight (mkHeader 5 50 [xaa] 5)) = true \/
          RevisionNumber (GetHeight (mkHeader 5 50 [xaa] 5))
          <> RevisionNumber (TrustedHeight (mkHeader 5 50 [xaa] 5))) as Hbad.
  { left. vm_compute. reflexivity. }
  split.
  - exact (proj1 (C9_height_not_above_trusted_rejected client
                    (mkConsensusState 0 [x05]) (mkHeader 5 50 [xaa] 5) 60 Hbad)).
  - apply (proj1 (proj2 (C9_height_not_above_trusted_rejected client
                           (mkConsensusState 0 [x05]) (mkHeader 5 50 [xaa] 5) 60 Hbad))
             (at_ 60) storeWithHeight10).
    vm_compute. discriminate.
Defined.

End UpdateProofs.

(** ** The merged client store *)

Lemma HasPrefix_app (p rest : bytes) : HasPrefix (p ++ rest) p = true.
Proof. induction p as [|b p IH]; simpl; [done|]. by rewrite decide_True. Qed.

Lemma HasPrefix_spec (s p : bytes) :
  HasPrefix s p = true <-> exists rest, s = p ++ rest.
Proof.
  split.
  - revert s. induction p as [|b p IH]; intros s; simpl.
    + intros _. by exists s.
    + destruct s as [|c s]; [done|]. case_decide as Hbc; [|done].
      intros [rest ->]%IH. exists rest. by rewrite Hbc.
  - intros [rest ->]. apply HasPrefix_app.
Qed.

Lemma TrimPrefix_app (p rest : bytes) : TrimPrefix (p ++ rest) p = rest.
Proof. unfold TrimPrefix. rewrite HasPrefix_app. by rewrite drop_app_length. Qed.

Module WasmProofs.
Import Wasm.

Section Merged.
Context {S : Type} `{KVStore S}.

Lemma SplitPrefix_subject rest :
  SplitPrefix (SubjectPrefix ++ rest) = (Some SubjectPrefix, rest).
Proof. unfold SplitPrefix. by rewrite HasPrefix_app, TrimPrefix_app. Qed.

(** The prefix that [SplitPrefix] returns equals "subject/" exactly when
    the key starts with it. *)
Lemma SplitPrefix_Equal_subject key :
  prefix_Equal (SplitPrefix key).1 SubjectPrefix = HasPrefix key SubjectPrefix.
Proof.
  unfold SplitPrefix.
  destruct (HasPrefix key SubjectPrefix); [done|].
  by destruct (HasPrefix key SubstitutePrefix).
Qed.

Lemma Set_other_prefix (ws : MergedClientStore S) key value :
  HasPrefix key SubjectPrefix = false -> Set_ ws key value = ws.
Proof.
  intros Hno. unfold Set_.
  pose proof (SplitPrefix_Equal_subject key) as Heq.
  destruct (SplitPrefix key) as [prefix key']; cbn [fst] in Heq.
  by rewrite Heq, Hno.
Qed.

Lemma Delete_other_prefix (ws : MergedClientStore S) key :
  HasPrefix key SubjectPrefix = false -> Delete ws key = ws.
Proof.
  intros Hno. unfold Delete.
  pose proof (SplitPrefix_Equal_subject key) as Heq.
  destruct (SplitPrefix key) as [prefix key']; cbn [fst] in Heq.
  by rewrite Heq, Hno.
Qed.

(** C10: [Set] and [Delete] of the merged store leave the substitute store
    as it is; for a key "subject/" ++ rest they are the [Set] and [Delete]
    of the subject store at [rest]; and for every other key, one that
    starts with "substitute/" in particular, they return the merged store
    unchanged. *)
Theorem C10_writes_reach_only_the_subject_store
    (ws : MergedClientStore S) (key value : bytes) :
  substituteStore (Set_ ws key value) = substituteStore ws /\
  substituteStore (Delete ws key) = substituteStore ws /\
  (forall rest, key = SubjectPrefix ++ rest ->
     subjectStore (Set_ ws key value) = kv_Set (subjectStore ws) rest value /\
     subjectStore (Delete ws key) = kv_Delete (subjectStore ws) rest) /\
  ((forall rest, key <> SubjectPrefix ++ rest) ->
     Set_ ws key value = ws /\ Delete ws key = ws) /\
  (forall rest, key = SubstitutePrefix ++ rest ->
     Set_ ws key value = ws /\ Delete ws key = ws).
Proof.
  destruct (HasPrefix key SubjectPrefix) eqn:Hprefix.
  - apply HasPrefix_spec in Hprefix as [rest0 ->].
    unfold Set_, Delete. rewrite SplitPrefix_subject. simpl.
    split_and!; try done.
    + by intros rest ->%(inj (app SubjectPrefix)).
    + intros Hno. by destruct (Hno rest0).
  - rewrite Set_other_prefix, Delete_other_prefix by done.
    split_and!; try done.
    intros rest ->. by rewrite HasPrefix_app in Hprefix.
Qed.
End Merged.

(** C10 at concrete keys, on stores that log the calls they receive: a
    "subject/" key reaches the subject store once, with the prefix stripped,
    and nothing reaches the substitute store. *)
Lemma C10_witness :
  let ws := {| subjectStore := ([] : list StoreCall); substituteStore := [] |} in
  let key := list_byte_of_string "subject/clientState" in
  let rest := list_byte_of_string "clientState" in
  subjectStore (Set_ ws key [x01]) = [CallSet rest [x01]] /\
  subjectStore (Delete ws key) = [CallDelete rest].
Proof.
  intros ws key rest.
  exact (proj1 (proj2 (proj2 (C10_writes_reach_only_the_subject_store ws key [x01])))
           rest eq_refl).
Defined.

End WasmProofs.

(** ** Replayed packets *)

Module ChannelProofs.
Import clienttypes Channel.

Section Replay.
Context {AppState : Type}.
Variable onRecvPacket :
  Packet -> AppState -> AppState * list bytes * option bytes * bool.
Variable verifyPacketCommitment : Packet -> bytes -> Height -> bool.

(** C8: on an UNORDERED channel, for a packet whose receipt exists,
    [recvPacket] succeeds and returns the keeper state it was given: the
    callback has not been invoked again, no event has been emitted, and
    receipts, acknowledgements, counters and application state are as they
    were. *)
Theorem C8_unordered_replay_is_noop ctx (st : KeeperState) packet proof
    proofHeight channel :
  channels st !! (DestinationPort packet, DestinationChannel packet) = Some channel ->
  Ordering channel = UNORDERED ->
  receiptKey packet ∈ packetReceipts st ->
  exists st',
    recvPacket onRecvPacket verifyPacketCommitment ctx st packet proof proofHeight
      = (None, st') /\
    st' = st /\
    callbackInvocations st' = callbackInvocations st /\
    events st' = events st /\
    application st' = application st.
Proof.
  intros Hchannel Hunordered Hreceipt. exists st.
  unfold recvPacket. rewrite Hchannel, Hunordered.
  by rewrite bool_decide_eq_true_2.
Qed.
End Replay.

(** C8 at a concrete keeper: the packet is received once, then again. *)
Lemma C8_witness :
  exists st',
    recvPacket Examples.countingApp Examples.acceptProof Examples.hostAt100
      Examples.keeperAfterFirstRecv Examples.firstPacket [] (NewHeight 1 99)
      = (None, st') /\
    st' = Examples.keeperAfterFirstRecv /\
    callbackInvocations st' = [Examples.firstPacket] /\
    events st' = [AppEvent [x2a]] /\
    application st' = 1%nat.
Proof.
  apply (C8_unordered_replay_is_noop Examples.countingApp Examples.acceptProof
           Examples.hostAt100 Examples.keeperAfterFirstRecv Examples.firstPacket
           [] (NewHeight 1 99) Examples.unorderedChannel).
  - vm_compute. reflexivity.
  - reflexivity.
  - apply (bool_decide_unpack _). vm_compute. exact I.
Defined.

End ChannelProofs.

(** ** More of update.go: misbehaviour, acceptance, frames *)

Module UpdateExtras.
Import clienttypes Tendermint HeightOrder StoreFacts UpdateProofs.

Section WithCollaborators.
Context `{Collaborators}.

(** For a header that passes validity checking, [CheckForMisbehaviour]
    decides what [CheckHeaderAndUpdateState] does: when it reports
    misbehaviour the client is frozen and the store is left alone; otherwise
    the result is that of [UpdateState]. *)
Theorem CheckForMisbehaviour_decides_freeze cs ctx s header trusted :
  GetConsensusState s (TrustedHeight header) = inr trusted ->
  checkValidity cs trusted header (BlockTime ctx) = None ->
  CheckHeaderAndUpdateState cs ctx s (MsgHeader header) =
    if CheckForMisbehaviour cs ctx s (MsgHeader header)
    then (Ok (set_FrozenHeight cs FrozenHeight, Header_ConsensusState header), s)
    else UpdateState cs ctx s (MsgHeader header).
Proof.
intros Htrusted Hvalid.
unfold CheckHeaderAndUpdateState, CheckForMisbehaviour.
destruct (GetConsensusState s (GetHeight header)) as [e|prev] eqn:Hget.
- rewrite Htrusted, Hvalid.
  destruct (match GetPreviousConsensusState s (GetHeight header) with
            | Some _ => _ | None => _ end); [done|].
  by destruct (match GetNextConsensusState s (GetHeight header) with
               | Some _ => _ | None => _ end).
- case_bool_decide as Heq.
  + unfold UpdateState. by rewrite Hget.
  + by rewrite Htrusted, Hvalid.
Qed.

(** On a readable, monotonic store [CheckForMisbehaviour] reports a header
    exactly when a different consensus state is stored at its height, or none
    is stored there and recording the header's consensus state would break
    the monotonicity of timestamps. *)
Theorem CheckForMisbehaviour_iff cs ctx s header :
  Readable s -> Monotonic s ->
  CheckForMisbehaviour cs ctx s (MsgHeader header) = true <->
  (exists prev,
     consensusStates s !! GetHeight header = Some (Stored prev) /\
     prev <> Header_ConsensusState header) \/
  (consensusStates s !! GetHeight header = None /\
   BreaksMonotonicity s (GetHeight header) (Header_ConsensusState header)).
Proof.
intros Hr Hm. unfold CheckForMisbehaviour.
destruct (GetConsensusState s (GetHeight header)) as [e|prev] eqn:Hget.
- apply GetConsensusState_inl_Readable in Hget; [|done]. split.
  + intros Hcheck. right. split; [done|].
    destruct (GetPreviousConsensusState s (GetHeight header)) as [p|] eqn:Hprev.
    * destruct (negb (Before (Timestamp p) _)) eqn:Hbefore.
      -- apply GetPreviousConsensusState_Some in Hprev as (hp & Hlt & Hp & _).
         left. exists hp, p. split_and!; [done..|].
         unfold Before in Hbefore. apply negb_true_iff, Z.ltb_ge in Hbefore. lia.
      -- destruct (GetNextConsensusState s (GetHeight header)) as [n|] eqn:Hnext;
           [|done].
         destruct (negb (After (Timestamp n) _)) eqn:Hafter; [|done].
         apply GetNextConsensusState_Some in Hnext as (hn & Hgt & Hn & _).
         right. exists hn, n. split_and!; [done..|].
         unfold After in Hafter. apply negb_true_iff, Z.ltb_ge in Hafter. lia.
    * destruct (GetNextConsensusState s (GetHeight header)) as [n|] eqn:Hnext;
        [|done].
      destruct (negb (After (Timestamp n) _)) eqn:Hafter; [|done].
      apply GetNextConsensusState_Some in Hnext as (hn & Hgt & Hn & _).
      right. exists hn, n. split_and!; [done..|].
      unfold After in Hafter. apply negb_true_iff, Z.ltb_ge in Hafter. lia.
  + intros [(prev & Hprev & _)|[_ Hbreaks]]; [congruence|].
    destruct Hbreaks as [(h1 & c1 & Hlt & Hh1 & Hnot)|(h2 & c2 & Hgt & Hh2 & Hnot)].
    * by rewrite (previous_check_catches s _ _ h1 c1).
    * rewrite (next_check_catches s _ _ h2 c2) by done.
      by destruct (match GetPreviousConsensusState s (GetHeight header) with
                   | Some _ => _ | None => _ end).
- apply GetConsensusState_inr in Hget. split.
  + case_bool_decide as Heq; [done|]. intros _. left. by exists prev.
  + intros [(prev' & Hprev & Hne)|[Hnone _]]; [|congruence].
    rewrite Hget in Hprev. injection Hprev as <-.
    by rewrite bool_decide_eq_false_2.
Qed.

(** [checkValidity] accepts a header exactly when its three encoded parts
    decode, the trusted validators hash to the next-validators hash of the
    trusted consensus state, the header is in the revision of its trusted
    height and strictly above it, and [light.Verify] accepts it against the
    header built from the trusted consensus state. *)
Theorem checkValidity_accepts_iff cs consState header now :
  checkValidity cs consState header now = None <->
  exists trustedVals signedHeader vals,
    ValidatorSetFromProto (TrustedValidators header) = inr trustedVals /\
    SignedHeaderFromProto (SignedHeader header) = inr signedHeader /\
    ValidatorSetFromProto (ValidatorSet header) = inr vals /\
    NextValidatorsHash consState = ValidatorSet_Hash trustedVals /\
    RevisionNumber (GetHeight header) = RevisionNumber (TrustedHeight header) /\
    (RevisionHeight (TrustedHeight header) < RevisionHeight (GetHeight header))%N /\
    light_Verify (trustedSignedHeader cs consState header) trustedVals signedHeader
      vals (TrustingPeriod cs) now (MaxClockDrift cs) (TrustLevel cs) = None.
Proof.
unfold checkValidity, checkTrustedHeader, trustedSignedHeader, ToTendermint.
destruct (ValidatorSetFromProto (TrustedValidators header)) as [e|trustedVals];
  [split; [done|]; by intros (? & ? & ? & [=] & _)|].
unfold bytes_Equal. case_bool_decide as Hhash; simpl; cycle 1.
{ split; [done|]. intros (tv & sh & v & [= <-] & _ & _ & Hh & _). done. }
destruct (N.eqb_spec (RevisionNumber (GetHeight header))
            (RevisionNumber (TrustedHeight header))) as [Hrev|Hrev]; simpl; cycle 1.
{ split; [done|]. intros (tv & sh & v & _ & _ & _ & _ & Hr & _). done. }
destruct (SignedHeaderFromProto (SignedHeader header)) as [e|signedHeader];
  [split; [done|]; by intros (? & ? & ? & _ & [=] & _)|].
destruct (ValidatorSetFromProto (ValidatorSet header)) as [e|vals];
  [split; [done|]; by intros (? & ? & ? & _ & _ & [=] & _)|].
destruct (LTE (GetHeight header) (TrustedHeight header)) eqn:Hlte.
{ split; [done|]. intros (tv & sh & v & _ & _ & _ & _ & _ & Hlt & _).
  apply LTE_spec in Hlte. lia. }
assert (RevisionHeight (TrustedHeight header) < RevisionHeight (GetHeight header))%N
  as Hlt.
{ destruct (N.lt_ge_cases (RevisionHeight (TrustedHeight header))
              (RevisionHeight (GetHeight header))) as [|Hge]; [done|].
  assert (LTE (GetHeight header) (TrustedHeight header) = true)
    by (apply LTE_spec; lia). congruence. }
destruct (light_Verify _ _ _ _ _ _ _ _) as [e|] eqn:Hverify.
- split; [done|].
  intros (tv & sh & v & [= <-] & [= <-] & [= <-] & _ & _ & _ & Hv). congruence.
- split; [|done]. intros _. by exists trustedVals, signedHeader, vals.
Qed.

(** What [CheckHeaderAndUpdateState] can return as client state: the one it
    was called on, that one frozen, or that one with the latest height moved
    up to the header's height. *)
Lemma CheckHeaderAndUpdateState_client_cases cs ctx s msg cs' c' s' :
  CheckHeaderAndUpdateState cs ctx s msg = (Ok (cs', c'), s') ->
  cs' = cs \/ cs' = set_FrozenHeight cs FrozenHeight \/
  exists h, GT h (LatestHeight cs) = true /\ cs' = set_LatestHeight cs h.
Proof.
destruct msg as [header|m]; [|done]. unfold CheckHeaderAndUpdateState.
destruct (GetConsensusState s (GetHeight header)) as [e|prev] eqn:Hget.
- destruct (GetConsensusState s (TrustedHeight header)) as [e'|trusted]; [done|].
  destruct (checkValidity _ _ _ _); [done|].
  destruct (match GetPreviousConsensusState s (GetHeight header) with
            | Some _ => _ | None => _ end); [intros [= <- _ _]; auto|].
  destruct (match GetNextConsensusState s (GetHeight header) with
            | Some _ => _ | None => _ end); [intros [= <- _ _]; auto|].
  rewrite UpdateState_fresh by (intros ?; congruence).
  destruct (pruneOldestConsensusState cs ctx s); try done.
  destruct (GT (GetHeight header) (LatestHeight cs)) eqn:Hgt;
    intros [= <- _ _]; eauto.
- case_bool_decide as Heq; [intros [= <- _ _]; auto|].
  destruct (GetConsensusState s (TrustedHeight header)) as [e'|trusted]; [done|].
  destruct (checkValidity _ _ _ _); [done|].
  intros [= <- _ _]; auto.
Qed.

(** Whatever [CheckHeaderAndUpdateState] returns on success: the latest
    height has not gone down, a frozen client is still frozen, the frozen
    height is the old one or the sentinel, and the chain id, trust level and
    the three periods are untouched. *)
Theorem CheckHeaderAndUpdateState_client_frame cs ctx s msg cs' c' s' :
  CheckHeaderAndUpdateState cs ctx s msg = (Ok (cs', c'), s') ->
  LTE (LatestHeight cs) (LatestHeight cs') = true /\
  (IsZero (FrozenHeight_ cs) = false -> IsZero (FrozenHeight_ cs') = false) /\
  (FrozenHeight_ cs' = FrozenHeight_ cs \/ FrozenHeight_ cs' = FrozenHeight) /\
  ChainId cs' = ChainId cs /\
  TrustLevel cs' = TrustLevel cs /\
  TrustingPeriod cs' = TrustingPeriod cs /\
  UnbondingPeriod cs' = UnbondingPeriod cs /\
  MaxClockDrift cs' = MaxClockDrift cs.
Proof.
intros Hcheck.
destruct (CheckHeaderAndUpdateState_client_cases _ _ _ _ _ _ _ Hcheck)
  as [->|[->|(h & Hgt & ->)]]; simpl.
- split_and!; auto. apply HeightLE_reflexive.
- split_and!; auto. apply HeightLE_reflexive.
- split_and!; auto. rewrite GT_LT in Hgt. by apply LT_LTE.
Qed.

(** What [CheckHeaderAndUpdateState] can do to the store: nothing, or what
    a successful [UpdateState] of a header without stored state does. *)
Lemma CheckHeaderAndUpdateState_store_cases cs ctx s msg out s' :
  CheckHeaderAndUpdateState cs ctx s msg = (out, s') ->
  s' = s \/
  exists header s1,
    msg = MsgHeader header /\ (exists r, out = Ok r) /\
    pruneOldestConsensusState cs ctx s = Ok s1 /\
    s' = setConsensusMetadata ctx s1 (GetHeight header).
Proof.
destruct msg as [header|m]; [|intros [= _ <-]; by left].
unfold CheckHeaderAndUpdateState.
destruct (GetConsensusState s (GetHeight header)) as [e|prev] eqn:Hget.
- destruct (GetConsensusState s (TrustedHeight header)) as [e'|trusted];
    [intros [= _ <-]; by left|].
  destruct (checkValidity _ _ _ _); [intros [= _ <-]; by left|].
  destruct (match GetPreviousConsensusState s (GetHeight header) with
            | Some _ => _ | None => _ end); [intros [= _ <-]; by left|].
  destruct (match GetNextConsensusState s (GetHeight header) with
            | Some _ => _ | None => _ end); [intros [= _ <-]; by left|].
  rewrite UpdateState_fresh by (intros ?; congruence).
  destruct (pruneOldestConsensusState cs ctx s) as [s1|e1|e1] eqn:Hprune;
    intros [= <- <-]; [|by left..].
  right. exists header, s1. eauto.
- case_bool_decide as Heq; [intros [= _ <-]; by left|].
  destruct (GetConsensusState s (TrustedHeight header)) as [e'|trusted];
    [intros [= _ <-]; by left|].
  destruct (checkValidity _ _ _ _); intros [= _ <-]; by left.
Qed.

Lemma pruneOldestConsensusState_subseteq cs ctx s s1 :
  pruneOldestConsensusState cs ctx s = Ok s1 ->
  consensusStates s1 ⊆ consensusStates s /\
  consensusMetadata s1 ⊆ consensusMetadata s.
Proof.
destruct (Earliest_or_empty s) as [Hempty|[h0 Hearliest]].
- rewrite pruneOldestConsensusState_empty by done. by intros [= <-].
- rewrite (pruneOldestConsensusState_earliest _ _ _ h0) by done.
  destruct (GetConsensusState s h0); [done|].
  destruct (IsExpired _ _ _); intros [= <-]; [|done].
  simpl. split; apply delete_subseteq.
Qed.

(** [CheckHeaderAndUpdateState] never adds or changes a consensus state in
    the store: every entry of the store it leaves behind was there before,
    with the same value. Unless it succeeds the store is exactly as it was,
    and metadata is only ever written for the height of the header. *)
Theorem CheckHeaderAndUpdateState_store_frame cs ctx s msg out s' :
  CheckHeaderAndUpdateState cs ctx s msg = (out, s') ->
  consensusStates s' ⊆ consensusStates s /\
  ((forall r, out <> Ok r) -> s' = s) /\
  (forall h m, consensusMetadata s' !! h = Some m ->
     consensusMetadata s !! h = Some m \/
     exists header, msg = MsgHeader header /\ h = GetHeight header).
Proof.
intros Hcheck.
destruct (CheckHeaderAndUpdateState_store_cases _ _ _ _ _ _ Hcheck)
  as [->|(header & s1 & -> & [r ->] & Hprune & ->)].
- split_and!; [done|done|]. intros h m Hm. by left.
- apply pruneOldestConsensusState_subseteq in Hprune as [Hstates Hmeta].
  split_and!; [done| |].
  + intros Hno. by destruct (Hno r).
  + intros h m; simpl. intros [[<- _]|[_ Hm]]%lookup_insert_Some.
    * right. by exists header.
    * left. by eapply lookup_weaken.
Qed.

(** Looking at the earliest state only is enough on a readable, monotonic
    store: when pruning leaves every consensus state in place, no stored
    consensus state is expired. *)
Theorem nothing_pruned_means_nothing_expired cs ctx s s' :
  Readable s -> Monotonic s ->
  pruneOldestConsensusState cs ctx s = Ok s' ->
  consensusStates s' = consensusStates s ->
  forall h c, consensusStates s !! h = Some (Stored c) ->
    IsExpired cs (Timestamp c) (BlockTime ctx) = false.
Proof.
intros Hr Hm Hprune Hsame h c Hh.
destruct (Earliest_or_empty s) as [Hempty|[h0 Hearliest]].
{ rewrite Hempty in Hh. by rewrite lookup_empty in Hh. }
rewrite (pruneOldestConsensusState_earliest _ _ _ h0) in Hprune by done.
destruct (GetConsensusState s h0) as [e|c0] eqn:Hget; [done|].
apply GetConsensusState_inr in Hget.
destruct (IsExpired cs (Timestamp c0) (BlockTime ctx)) eqn:Hexp.
{ injection Hprune as <-. simpl in Hsame.
  assert (delete h0 (consensusStates s) !! h0 = Some (Stored c0)) as Habsurd
    by (by rewrite Hsame).
  by rewrite lookup_delete_eq in Habsurd. }
assert (Timestamp c0 <= Timestamp c) as Hle.
{ destruct Hearliest as [_ Hleast].
  destruct (LTE_cases h0 h) as [->|Hlt]; [apply Hleast; eauto| |].
  - rewrite Hget in Hh. injection Hh as ->. lia.
  - specialize (Hm h0 h c0 c Hget Hh Hlt). lia. }
apply not_true_iff_false. intros Hexp'%IsExpired_spec.
apply not_true_iff_false in Hexp. apply Hexp, IsExpired_spec. lia.
Qed.
End WithCollaborators.

(** *** At concrete stores and headers *)

Import Examples.

(** A header for height 10 with time 50 when height 12 is stored with time
    40: misbehaviour is reported, and the update freezes the client. *)
Lemma CheckForMisbehaviour_decides_freeze_witness :
  CheckForMisbehaviour client (at_ 60) storeWithHeight12
    (MsgHeader (mkHeader 10 50 [xaa] 5)) = true /\
  CheckHeaderAndUpdateState client (at_ 60) storeWithHeight12
    (MsgHeader (mkHeader 10 50 [xaa] 5))
  = (Ok (set_FrozenHeight client FrozenHeight, mkConsensusState 50 [xaa]),
     storeWithHeight12).
Proof.
split; [vm_compute; reflexivity|].
rewrite (CheckForMisbehaviour_decides_freeze client (at_ 60) storeWithHeight12
           (mkHeader 10 50 [xaa] 5) (mkConsensusState 0 [x05])).
- vm_compute. reflexivity.
- vm_compute. reflexivity.
- vm_compute. reflexivity.
Defined.

(** The same header: nothing is stored at height 10 and the state of height
    12 is not after it. *)
Lemma CheckForMisbehaviour_iff_witness :
  CheckForMisbehaviour client (at_ 60) storeWithHeight12
    (MsgHeader (mkHeader 10 50 [xaa] 5)) = true.
Proof.
apply (CheckForMisbehaviour_iff client (at_ 60) storeWithHeight12
         (mkHeader 10 50 [xaa] 5)).
- apply (bool_decide_unpack _). vm_compute. exact I.
- apply (bool_decide_unpack _). vm_compute. exact I.
- right. split; [vm_compute; reflexivity|].
  right. exists (NewHeight 0 12), (mkConsensusState 40 [x0c]).
  split_and!; [reflexivity|vm_compute; reflexivity|vm_compute; discriminate].
Defined.

(** A header for height 10 on top of the trusted height 5 is accepted at
    time 60. *)
Lemma checkValidity_accepts_iff_witness :
  exists trustedVals signedHeader vals,
    ValidatorSetFromProto (TrustedValidators (mkHeader 10 50 [xaa] 5)) = inr trustedVals /\
    SignedHeaderFromProto (SignedHeader (mkHeader 10 50 [xaa] 5)) = inr signedHeader /\
    ValidatorSetFromProto (ValidatorSet (mkHeader 10 50 [xaa] 5)) = inr vals /\
    NextValidatorsHash (mkConsensusState 0 [x05]) = ValidatorSet_Hash trustedVals /\
    RevisionNumber (GetHeight (mkHeader 10 50 [xaa] 5))
      = RevisionNumber (TrustedHeight (mkHeader 10 50 [xaa] 5)) /\
    (RevisionHeight (TrustedHeight (mkHeader 10 50 [xaa] 5))
     < RevisionHeight (GetHeight (mkHeader 10 50 [xaa] 5)))%N /\
    light_Verify
      (trustedSignedHeader client (mkConsensusState 0 [x05]) (mkHeader 10 50 [xaa] 5))
      trustedVals signedHeader vals (TrustingPeriod client) 60
      (MaxClockDrift client) (TrustLevel client) = None.
Proof.
apply (checkValidity_accepts_iff client (mkConsensusState 0 [x05])
         (mkHeader 10 50 [xaa] 5) 60).
vm_compute. reflexivity.
Defined.

(** The conflicting header for height 10: the client comes back frozen, with
    the latest height and the trust parameters it had. *)
Lemma CheckHeaderAndUpdateState_client_frame_witness :
  let cs' := set_FrozenHeight client FrozenHeight in
  LTE (LatestHeight client) (LatestHeight cs') = true /\
  (IsZero (FrozenHeight_ client) = false -> IsZero (FrozenHeight_ cs') = false) /\
  (FrozenHeight_ cs' = FrozenHeight_ client \/ FrozenHeight_ cs' = FrozenHeight) /\
  ChainId cs' = ChainId client /\
  TrustLevel cs' = TrustLevel client /\
  TrustingPeriod cs' = TrustingPeriod client /\
  UnbondingPeriod cs' = UnbondingPeriod client /\
  MaxClockDrift cs' = MaxClockDrift client.
Proof.
intros cs'.
apply (CheckHeaderAndUpdateState_client_frame client (at_ 60) storeWithHeight10
         (MsgHeader (mkHeader 10 50 [xbb] 5)) cs' (mkConsensusState 50 [xbb])
         storeWithHeight10).
vm_compute. reflexivity.
Defined.

(** The update that prunes height 1 of the two-state store: what is left of
    the consensus states was there before. *)
Lemma CheckHeaderAndUpdateState_store_frame_witness :
  let result := CheckHeaderAndUpdateState client (at_ 150) storeTwoStates
                  (MsgHeader (mkHeader 7 140 [xaa] 2)) in
  consensusStates result.2 ⊆ consensusStates storeTwoStates /\
  ((forall r, result.1 <> Ok r) -> result.2 = storeTwoStates) /\
  (forall h m, consensusMetadata result.2 !! h = Some m ->
     consensusMetadata storeTwoStates !! h = Some m \/
     exists header, MsgHeader (mkHeader 7 140 [xaa] 2) = MsgHeader header /\
       h = GetHeight header).
Proof.
intros result.
apply (CheckHeaderAndUpdateState_store_frame client (at_ 150) storeTwoStates
         (MsgHeader (mkHeader 7 140 [xaa] 2)) result.1 result.2).
vm_compute. reflexivity.
Defined.

(** At time 60 nothing is pruned from the two-state store, and neither of its
    states is expired. *)
Lemma nothing_pruned_means_nothing_expired_witness :
  pruneOldestConsensusState client (at_ 60) storeTwoStates = Ok storeTwoStates /\
  IsExpired client (Timestamp (mkConsensusState 90 [x02])) (BlockTime (at_ 60)) = false.
Proof.
split; [vm_compute; reflexivity|].
apply (nothing_pruned_means_nothing_expired client (at_ 60) storeTwoStates
         storeTwoStates) with (h := NewHeight 0 2).
- apply (bool_decide_unpack _). vm_compute. exact I.
- apply (bool_decide_unpack _). vm_compute. exact I.
- vm_compute. reflexivity.
- reflexivity.
- vm_compute. reflexivity.
Defined.

(** A store reached by an update: the client is created with the state of
    height 1 and time 0, the header for height 2 and time 50 is accepted at
    time 60, and its consensus state is recorded. The store then holds both
    states, it is readable, and its timestamps are in the order of the
    heights. *)
Lemma Reachable_invariant_witness :
  let header := mkHeader 2 50 [xaa] 1 in
  let afterUpdate :=
    (CheckHeaderAndUpdateState client (at_ 60) storeTrustedOnly (MsgHeader header)).2 in
  let recorded :=
    SetConsensusState afterUpdate (GetHeight header) (mkConsensusState 50 [xaa]) in
  consensusStates recorded !! NewHeight 0 1 = Some (Stored (mkConsensusState 0 [x01])) /\
  consensusStates recorded !! NewHeight 0 2 = Some (Stored (mkConsensusState 50 [xaa])) /\
  Readable recorded /\ Monotonic recorded.
Proof.
intros header afterUpdate recorded.
split; [vm_compute; reflexivity|]. split; [vm_compute; reflexivity|].
apply Reachable_invariant.
apply (Reachable_update storeTrustedOnly client (at_ 60) header client
         (mkConsensusState 50 [xaa]) afterUpdate).
- change storeTrustedOnly with
    {| consensusStates :=
         list_to_map [ (NewHeight 0 1, Stored (mkConsensusState 0 [x01])) ];
       consensusMetadata := ∅ |}.
  apply (Reachable_initial (NewHeight 0 1) (mkConsensusState 0 [x01]) ∅).
- vm_compute. reflexivity.
- reflexivity.
Defined.

End UpdateExtras.

(** ** More of the merged client store: reads, round trips, iterators *)

Module MergedStoreExtras.
Import Wasm WasmProofs.

Lemma HasPrefix_subject_not_substitute key :
  HasPrefix key SubjectPrefix = true -> HasPrefix key SubstitutePrefix = false.
Proof. intros [rest ->]%HasPrefix_spec. reflexivity. Qed.

Lemma HasPrefix_substitute_not_subject rest :
  HasPrefix (SubstitutePrefix ++ rest) SubjectPrefix = false.
Proof. reflexivity. Qed.

Lemma SplitPrefix_substitute rest :
  SplitPrefix (SubstitutePrefix ++ rest) = (Some SubstitutePrefix, rest).
Proof.
unfold SplitPrefix.
rewrite (HasPrefix_substitute_not_subject rest).
by rewrite HasPrefix_app, TrimPrefix_app.
Qed.


(** [SplitPrefix] loses nothing: the prefix it returns (nil counted as
    empty) followed by the rest is the key again, and the prefix is
    "subject/", "substitute/" or nil, nil leaving the key whole. *)
Theorem SplitPrefix_roundtrip (key : bytes) :
  default [] (SplitPrefix key).1 ++ (SplitPrefix key).2 = key /\
  ((SplitPrefix key).1 = Some SubjectPrefix \/
   (SplitPrefix key).1 = Some SubstitutePrefix \/
   ((SplitPrefix key).1 = None /\ (SplitPrefix key).2 = key)).
Proof.
unfold SplitPrefix.
destruct (HasPrefix key SubjectPrefix) eqn:Hsubject.
- apply HasPrefix_spec in Hsubject as [rest ->]. rewrite TrimPrefix_app. auto.
- destruct (HasPrefix key SubstitutePrefix) eqn:Hsubstitute.
  + apply HasPrefix_spec in Hsubstitute as [rest ->]. rewrite TrimPrefix_app. auto.
  + simpl. auto.
Qed.

Section Reads.
Context {S : Type} `{KVStore S}.

(** [Get] and [Has] read the subject store for a "subject/" key and the
    substitute store for a "substitute/" key, at the key without its prefix;
    for any other key, the empty key included, [Get] returns nil and [Has]
    false without reading either store. *)
Theorem Get_Has_routing (ws : MergedClientStore S) (key : bytes) :
  (forall rest, key = SubjectPrefix ++ rest ->
     Get ws key = kv_Get (subjectStore ws) rest /\
     Has ws key = kv_Has (subjectStore ws) rest) /\
  (forall rest, key = SubstitutePrefix ++ rest ->
     Get ws key = kv_Get (substituteStore ws) rest /\
     Has ws key = kv_Has (substituteStore ws) rest) /\
  (HasPrefix key SubjectPrefix = false ->
   HasPrefix key SubstitutePrefix = false ->
   Get ws key = None /\ Has ws key = false).
Proof.
split_and!.
- intros rest ->. unfold Get, Has. by rewrite SplitPrefix_subject.
- intros rest ->. unfold Get, Has. by rewrite SplitPrefix_substitute.
- intros Hsubject Hsubstitute. unfold Get, Has, SplitPrefix.
  by rewrite Hsubject, Hsubstitute.
Qed.

(** One write through the adapter, seen from the two stores. *)
Lemma adapterCall_merged (a : StoreAdapter (MergedClientStore S)) (call : StoreCall) :
  substituteStore (parent (adapterCall a call)) = substituteStore (parent a) /\
  subjectStore (parent (adapterCall a call)) =
    match subjectCall call with
    | Some c => storeCall (subjectStore (parent a)) c
    | None => subjectStore (parent a)
    end.
Proof.
destruct a as [ws]. destruct call as [key value|key]; unfold subjectCall;
  cbn [adapterCall Adapter_Set Adapter_Delete parent].
- change (kv_Set ws key value) with (Set_ ws key value).
  destruct (HasPrefix key SubjectPrefix) eqn:Hprefix.
  + apply HasPrefix_spec in Hprefix as [rest ->].
    unfold Set_. rewrite SplitPrefix_subject, TrimPrefix_app. done.
  + by rewrite Set_other_prefix.
- change (kv_Delete ws key) with (Delete ws key).
  destruct (HasPrefix key SubjectPrefix) eqn:Hprefix.
  + apply HasPrefix_spec in Hprefix as [rest ->].
    unfold Delete. rewrite SplitPrefix_subject, TrimPrefix_app. done.
  + by rewrite Delete_other_prefix.
Qed.

(** Writes made through the adapter for the Wasm VM onto a merged store,
    however many: the substitute store is as it was, and the subject store
    has received exactly the writes whose key starts with "subject/", in
    order, with the prefix stripped. *)
Theorem adapter_writes_reach_subject_only (ws : MergedClientStore S)
    (calls : list StoreCall) :
  let final := parent (foldl adapterCall (NewStoreAdapter ws) calls) in
  substituteStore final = substituteStore ws /\
  subjectStore final = foldl storeCall (subjectStore ws) (omap subjectCall calls).
Proof.
cbv zeta. change ws with (parent (NewStoreAdapter ws)) at 2 4.
generalize (NewStoreAdapter ws). clear ws.
induction calls as [|call calls IH]; intros a; [done|].
cbn [foldl]. destruct (IH (adapterCall a call)) as [-> ->].
destruct (adapterCall_merged a call) as [-> ->].
split; [done|]. cbn [omap list_omap].
by destruct (subjectCall call).
Qed.
End Reads.

(** On stores that are finite maps: a value set under a "subject/" key is
    read back, a deleted "subject/" key reads as absent, no other key reads
    differently after either, and a value set under a "substitute/" key is
    not read back: the earlier value is. *)
Theorem merged_store_roundtrip (ws : MergedClientStore (gmap bytes bytes))
    (rest value : bytes) :
  let key := SubjectPrefix ++ rest in
  Get (Set_ ws key value) key = Some value /\
  Get (Delete ws key) key = None /\
  Has (Delete ws key) key = false /\
  (forall key', key' <> key ->
     Get (Set_ ws key value) key' = Get ws key' /\
     Get (Delete ws key) key' = Get ws key') /\
  Get (Set_ ws (SubstitutePrefix ++ rest) value) (SubstitutePrefix ++ rest)
    = Get ws (SubstitutePrefix ++ rest).
Proof.
intros key. unfold key.
assert (forall ws' : MergedClientStore (gmap bytes bytes),
          Get ws' (SubjectPrefix ++ rest) = subjectStore ws' !! rest) as Hget.
{ intros ws'. unfold Get. by rewrite SplitPrefix_subject. }
split_and!.
- rewrite Hget. unfold Set_. rewrite SplitPrefix_subject. simpl.
  apply lookup_insert_eq.
- rewrite Hget. unfold Delete. rewrite SplitPrefix_subject. simpl.
  apply lookup_delete_eq.
- unfold Has, Delete. rewrite !SplitPrefix_subject. simpl.
  rewrite lookup_delete_eq. by apply bool_decide_eq_false_2, is_Some_None.
- intros key' Hne. unfold Set_, Delete. rewrite SplitPrefix_subject. simpl.
  unfold Get. destruct (SplitPrefix_roundtrip key') as [Hjoin Hcases].
  destruct (SplitPrefix key') as [prefix rest'] eqn:Hsplit. simpl in *.
  destruct Hcases as [->|[->|[-> ->]]]; simpl; [|done..].
  simpl in Hjoin. assert (rest <> rest') as Hrest by (intros ->; congruence).
  by rewrite lookup_insert_ne, lookup_delete_ne.
- by rewrite Set_other_prefix.
Qed.

Section Iterators.
Context {S It : Type} `{KVStore S} `{KVIterate S It}.

(** [Iterator] and [ReverseIterator] iterate one store only: the subject
    store when both bounds start with "subject/", the substitute store when
    both start with "substitute/", with the prefix stripped from both
    bounds; in every other case, unbounded (nil) bounds included, they
    return the closed iterator. *)
Theorem Iterator_routing (ws : MergedClientStore S) (start end_ : bytes) :
  Iterator ws start end_ =
    (if HasPrefix start SubjectPrefix && HasPrefix end_ SubjectPrefix then
       kv_Iterator (subjectStore ws)
         (TrimPrefix start SubjectPrefix) (TrimPrefix end_ SubjectPrefix)
     else if HasPrefix start SubstitutePrefix && HasPrefix end_ SubstitutePrefix then
       kv_Iterator (substituteStore ws)
         (TrimPrefix start SubstitutePrefix) (TrimPrefix end_ SubstitutePrefix)
     else closedIterator ws) /\
  ReverseIterator ws start end_ =
    (if HasPrefix start SubjectPrefix && HasPrefix end_ SubjectPrefix then
       kv_ReverseIterator (subjectStore ws)
         (TrimPrefix start SubjectPrefix) (TrimPrefix end_ SubjectPrefix)
     else if HasPrefix start SubstitutePrefix && HasPrefix end_ SubstitutePrefix then
       kv_ReverseIterator (substituteStore ws)
         (TrimPrefix start SubstitutePrefix) (TrimPrefix end_ SubstitutePrefix)
     else closedIterator ws) /\
  Iterator ws [] [] = closedIterator ws.
Proof.
unfold Iterator, ReverseIterator, SplitPrefix.
destruct (HasPrefix start SubjectPrefix) eqn:Hs1;
  [rewrite (HasPrefix_subject_not_substitute start) by done|];
  (destruct (HasPrefix end_ SubjectPrefix) eqn:He1;
     [rewrite (HasPrefix_subject_not_substitute end_) by done|]);
  try destruct (HasPrefix start SubstitutePrefix);
  try destruct (HasPrefix end_ SubstitutePrefix);
  done.
Qed.
End Iterators.

(** Reads of a merged store of two finite maps, with one entry each. *)
Lemma Get_Has_routing_witness :
  let ws := {| subjectStore := ({[ [x01] := [x0a] ]} : gmap bytes bytes);
               substituteStore := {[ [x01] := [x0b] ]} |} in
  Get ws (SubjectPrefix ++ [x01]) = Some [x0a] /\
  Get ws (SubstitutePrefix ++ [x01]) = Some [x0b] /\
  Get ws [x01] = None.
Proof.
intros ws.
pose proof (Get_Has_routing ws (SubjectPrefix ++ [x01])) as (Hsubject & _ & _).
pose proof (Get_Has_routing ws (SubstitutePrefix ++ [x01])) as (_ & Hsubstitute & _).
pose proof (Get_Has_routing ws [x01]) as (_ & _ & Hother).
split_and!.
- rewrite (proj1 (Hsubject [x01] eq_refl)). reflexivity.
- rewrite (proj1 (Hsubstitute [x01] eq_refl)). reflexivity.
- exact (proj1 (Hother eq_refl eq_refl)).
Defined.

(** A key of the subject store other than the one written reads as before. *)
Lemma merged_store_roundtrip_witness :
  let ws := {| subjectStore := ({[ [x02] := [x0a] ]} : gmap bytes bytes);
               substituteStore := ∅ |} in
  Get (Set_ ws (SubjectPrefix ++ [x01]) [x0c]) (SubjectPrefix ++ [x02]) = Some [x0a].
Proof.
intros ws.
pose proof (merged_store_roundtrip ws [x01] [x0c]) as (_ & _ & _ & Hframe & _).
rewrite (proj1 (Hframe (SubjectPrefix ++ [x02]) ltac:(discriminate))).
reflexivity.
Defined.

End MergedStoreExtras.

(** ** Store paths of ICS 04 *)

Module HostKeyExtras.
Import host.

Lemma append_assoc (a b c : string) : (a +:+ b) +:+ c = a +:+ (b +:+ c).
Proof.
induction a as [|ch a IH]; [done|].
change (String ch ((a +:+ b) +:+ c) = String ch (a +:+ (b +:+ c))). by f_equal.
Qed.

Lemma decimal_inj (n m : N) : decimal n = decimal m -> n = m.
Proof.
unfold decimal. intros Heq.
assert (N.to_uint n = N.to_uint m) as Huint.
{ apply (inj Some). by rewrite <- !NilEmpty.usu, Heq. }
by rewrite <- (DecimalN.Unsigned.of_to n), <- (DecimalN.Unsigned.of_to m), Huint.
Qed.

Lemma list_byte_of_string_inj (a b : string) :
  list_byte_of_string a = list_byte_of_string b -> a = b.
Proof.
intros Heq.
by rewrite <- (string_of_list_byte_of_string a),
           <- (string_of_list_byte_of_string b), Heq.
Qed.

Section Paths.
Variable channelPath : string -> string -> string.

(** The keys under which the commitment, the acknowledgement and the receipt
    of a packet are stored tell the sequences of one channel apart: two
    sequences with the same key are the same sequence. *)
Theorem packet_keys_injective_in_sequence (portID channelID : string) (n m : N) :
  (PacketCommitmentKey channelPath portID channelID n
   = PacketCommitmentKey channelPath portID channelID m -> n = m) /\
  (PacketAcknowledgementKey channelPath portID channelID n
   = PacketAcknowledgementKey channelPath portID channelID m -> n = m) /\
  (PacketReceiptKey channelPath portID channelID n
   = PacketReceiptKey channelPath portID channelID m -> n = m).
Proof.
split_and!; intros Heq%list_byte_of_string_inj; revert Heq;
  unfold PacketCommitmentPath, PacketAcknowledgementPath, PacketReceiptPath,
    sequencePath, slash;
  rewrite ?append_assoc; intros Heq;
  repeat apply (inj (String.append _)) in Heq; by apply decimal_inj.
Qed.

(** Store keys of different families never coincide, whatever ports,
    channels and sequences they are built from: the keys of the three
    sequence counters, of a packet's commitment, acknowledgement and
    receipt, of the counterparty send counter and of the two pruning
    bounds are pairwise different. *)
Theorem store_key_families_disjoint
    (p1 c1 p2 c2 p3 c3 p4 c4 p5 c5 p6 c6 p7 c7 p8 c8 p9 c9 : string)
    (n4 n5 n6 : N) :
  NoDup [ NextSequenceSendKey channelPath p1 c1;
          NextSequenceRecvKey channelPath p2 c2;
          NextSequenceAckKey channelPath p3 c3;
          PacketCommitmentKey channelPath p4 c4 n4;
          PacketAcknowledgementKey channelPath p5 c5 n5;
          PacketReceiptKey channelPath p6 c6 n6;
          CounterpartyNextSequenceSendKey channelPath p7 c7;
          PruningSequenceStartKey channelPath p8 c8;
          PruningSequenceEndKey channelPath p9 c9 ].
Proof.
change (NoDup (list_byte_of_string <$>
  [ NextSequenceSendPath channelPath p1 c1;
    NextSequenceRecvPath channelPath p2 c2;
    NextSequenceAckPath channelPath p3 c3;
    PacketCommitmentPath channelPath p4 c4 n4;
    PacketAcknowledgementPath channelPath p5 c5 n5;
    PacketReceiptPath channelPath p6 c6 n6;
    CounterpartyNextSequenceSendPath channelPath p7 c7;
    PruningSequenceStartPath channelPath p8 c8;
    PruningSequenceEndPath channelPath p9 c9 ])).
apply NoDup_fmap_2; [intros a b; apply list_byte_of_string_inj|].
apply (NoDup_fmap_1 firstSegment).
change (NoDup [ KeyNextSeqSendPrefix; KeyNextSeqRecvPrefix; KeyNextSeqAckPrefix;
                KeyPacketCommitmentPrefix; KeyPacketAckPrefix; KeyPacketReceiptPrefix;
                KeyCounterpartyNextSequenceSendPrefix; KeyPruningSequenceStart;
                KeyPruningSequenceEnd ]).
apply (bool_decide_unpack _). vm_compute. exact I.
Qed.
End Paths.

(** The keys of sequences 7 and 7 of one channel, with the channel path of
    the package. *)
Lemma packet_keys_injective_in_sequence_witness :
  let channelPath := fun p c : string => "ports/" +:+ p +:+ "/channels/" +:+ c in
  PacketCommitmentKey channelPath "transfer" "channel-0" 7
  = list_byte_of_string "commitments/ports/transfer/channels/channel-0/sequences/7" /\
  (7 = 7)%N.
Proof.
intros channelPath. split; [reflexivity|].
apply (proj1 (packet_keys_injective_in_sequence channelPath "transfer" "channel-0" 7 7)).
reflexivity.
Defined.

End HostKeyExtras.
